(** * YaYa Wallet webhook service: verification, processing and dispatch

    A shallow embedding of the TypeScript sources
      - [src/types/webhook.ts]                (the data model),
      - [src/services/webhookVerification.ts] ([verifyWebhook] and helpers),
      - [src/services/webhookProcessor.ts]    ([processWebhook]),
      - [src/controllers/webhookController.ts] ([handleWebhook]),
    together with the properties the specification states about them.

    Conventions of the embedding.
      - A JavaScript [string] is a [String.string]: the sequence of bytes of
        its UTF-8 encoding, which is what [update(s, 'utf8')] feeds to the
        HMAC.
      - A JavaScript [number] is a [Z]: the payload and configuration numbers
        are integer valued (unix seconds, milliseconds, integer amounts), and
        on integers of magnitude below 2^53 the subtraction, absolute value,
        comparison and decimal rendering of the sources are exact.  The only
        division of the sources, [tolerance / 1000], is kept as a rational
        of [Q].
      - An optional field ([error?: string]) and a possibly [undefined] value
        is an [option].
      - Ambient state ([process.env.NODE_ENV], the clock behind [Date.now()],
        the log, the HTTP response, the [setImmediate] queue) is threaded
        explicitly through a state-and-exception monad [M]. *)

From Stdlib Require Import ZArith List String Ascii Bool Lia QArith.
From Stdlib Require Import DecimalString DecimalZ.
Import ListNotations.

Local Open Scope string_scope.
Local Open Scope Z_scope.

(* ================================================================== *)
(** * JavaScript primitives used by the sources *)

Module Js.

(** [Number.prototype.toString()] on an integer-valued number: the decimal
    digits, with a leading minus sign on negative numbers. *)
Definition number_toString (n : Z) : string :=
  NilZero.string_of_int (Z.to_int n).


(** [Array.prototype.join(sep)] on an array of strings. *)
Fixpoint join (sep : string) (xs : list string) : string :=
  match xs with
  | [] => ""
  | [x] => x
  | x :: rest => x ++ sep ++ join sep rest
  end.

(** A digit [0..9] as a character. *)
Definition digit_char (d : Z) : ascii :=
  ascii_of_nat (48 + Z.to_nat (d mod 10)).

(** The digits after the decimal point of [f / 1000], for [0 < f < 1000]:
    three digits without the trailing zeros. *)
Definition fraction_digits (f : Z) : string :=
  let d1 := digit_char (f / 100) in
  let d2 := digit_char (f / 10) in
  let d3 := digit_char f in
  if negb (f mod 10 =? 0) then String d1 (String d2 (String d3 EmptyString))
  else if negb (f mod 100 =? 0) then String d1 (String d2 EmptyString)
  else String d1 EmptyString.

(** [(t / 1000).toString()] for an integer [t]: the quotient is a decimal
    with at most three digits after the point, which is its shortest
    representation. *)
Definition thousandth_toString (t : Z) : string :=
  let a := Z.abs t in
  (if t <? 0 then "-" else "") ++
  number_toString (a / 1000) ++
  (if a mod 1000 =? 0 then "" else "." ++ fraction_digits (a mod 1000)).

(** [a !== b] where [a] may be [undefined] and [b] is a string. *)
Definition strict_neq (a : option string) (b : string) : bool :=
  match a with
  | Some s => negb (String.eqb s b)
  | None => true
  end.

(** [a === b] where [a] may be [undefined] and [b] is a string. *)
Definition strict_eq (a : option string) (b : string) : bool :=
  negb (strict_neq a b).

(** [a || b] on possibly undefined strings: the empty string is falsy. *)
Definition or_else (a : option string) (b : option string) : option string :=
  match a with
  | Some "" => b
  | Some s => Some s
  | None => b
  end.

(** [Array.prototype.includes] on an array of strings. *)
Definition includes (xs : list string) (x : string) : bool :=
  existsb (String.eqb x) xs.

(** [String.prototype.toUpperCase] on the ASCII letters. *)
Definition upper_ascii (c : ascii) : ascii :=
  let n := nat_of_ascii c in
  if ((97 <=? n) && (n <=? 122))%nat then ascii_of_nat (n - 32) else c.

Fixpoint toUpperCase (s : string) : string :=
  match s with
  | EmptyString => EmptyString
  | String c r => String (upper_ascii c) (toUpperCase r)
  end.

End Js.

(* ================================================================== *)
(** * HMAC-SHA256, as computed by
      [crypto.createHmac('sha256', secret).update(s, 'utf8').digest('hex')]

    SHA-256 follows FIPS 180-4 on 32-bit words held in [Z], every addition
    and left shift reduced modulo 2^32; HMAC follows RFC 2104 with the
    64-byte block of SHA-256. *)

Module SHA256.

Local Open Scope list_scope.

Definition modulus : Z := 2 ^ 32.

Definition add32 (x y : Z) : Z := (x + y) mod modulus.

Definition shl32 (x n : Z) : Z := Z.shiftl x n mod modulus.

Definition rotr (n x : Z) : Z := Z.lor (Z.shiftr x n) (shl32 x (32 - n)).

Definition not32 (x : Z) : Z := Z.lxor x (modulus - 1).

Definition Ch (x y z : Z) : Z := Z.lxor (Z.land x y) (Z.land (not32 x) z).

Definition Maj (x y z : Z) : Z :=
  Z.lxor (Z.lxor (Z.land x y) (Z.land x z)) (Z.land y z).

Definition bsig0 (x : Z) : Z := Z.lxor (Z.lxor (rotr 2 x) (rotr 13 x)) (rotr 22 x).
Definition bsig1 (x : Z) : Z := Z.lxor (Z.lxor (rotr 6 x) (rotr 11 x)) (rotr 25 x).
Definition ssig0 (x : Z) : Z := Z.lxor (Z.lxor (rotr 7 x) (rotr 18 x)) (Z.shiftr x 3).
Definition ssig1 (x : Z) : Z := Z.lxor (Z.lxor (rotr 17 x) (rotr 19 x)) (Z.shiftr x 10).

(** Reading of hexadecimal tables. *)
Definition hex_value (c : ascii) : option Z :=
  let n := Z.of_nat (nat_of_ascii c) in
  if (48 <=? n) && (n <=? 57) then Some (n - 48)
  else if (97 <=? n) && (n <=? 102) then Some (n - 87)
  else None.

(** The words of a table written as blank-separated hexadecimal numerals. *)
Fixpoint words_of_hex (s : string) (cur : option Z) : list Z :=
  match s with
  | EmptyString => match cur with Some v => [v] | None => [] end
  | String c r =>
      match hex_value c with
      | Some d => words_of_hex r (Some (match cur with Some v => 16 * v + d | None => d end))
      | None => match cur with
                | Some v => v :: words_of_hex r None
                | None => words_of_hex r None
                end
      end
  end.

(** The sixty-four round constants (FIPS 180-4, section 4.2.2). *)
Definition K : list Z := Eval vm_compute in
  words_of_hex
    ("428a2f98 71374491 b5c0fbcf e9b5dba5 3956c25b 59f111f1 923f82a4 ab1c5ed5 " ++
     "d807aa98 12835b01 243185be 550c7dc3 72be5d74 80deb1fe 9bdc06a7 c19bf174 " ++
     "e49b69c1 efbe4786 0fc19dc6 240ca1cc 2de92c6f 4a7484aa 5cb0a9dc 76f988da " ++
     "983e5152 a831c66d b00327c8 bf597fc7 c6e00bf3 d5a79147 06ca6351 14292967 " ++
     "27b70a85 2e1b2138 4d2c6dfc 53380d13 650a7354 766a0abb 81c2c92e 92722c85 " ++
     "a2bfe8a1 a81a664b c24b8b70 c76c51a3 d192e819 d6990624 f40e3585 106aa070 " ++
     "19a4c116 1e376c08 2748774c 34b0bcb5 391c0cb3 4ed8aa4a 5b9cca4f 682e6ff3 " ++
     "748f82ee 78a5636f 84c87814 8cc70208 90befffa a4506ceb bef9a3f7 c67178f2")%string
    None.

(** The eight working words; also the intermediate hash value. *)
Record Words8 : Type := mkWords8 {
  wa : Z; wb : Z; wc : Z; wd : Z; we : Z; wf : Z; wg : Z; wh : Z
}.

(** The initial hash value (section 5.3.3). *)
Definition H_init : Words8 :=
  match words_of_hex "6a09e667 bb67ae85 3c6ef372 a54ff53a 510e527f 9b05688c 1f83d9ab 5be0cd19" None with
  | [a; b; c; d; e; f; g; h] => mkWords8 a b c d e f g h
  | _ => mkWords8 0 0 0 0 0 0 0 0
  end.

(** Padding (section 5.1.1): the byte 0x80, zero bytes up to 56 modulo 64,
    and the bit length on eight bytes, most significant first. *)
Definition be_bytes (count : nat) (v : Z) : list Z :=
  map (fun i => Z.shiftr v (8 * Z.of_nat i) mod 256) (rev (seq 0 count)).

Definition pad (msg : list Z) : list Z :=
  let len := Z.of_nat (List.length msg) in
  msg ++ [128] ++ repeat 0 (Z.to_nat ((55 - len) mod 64)) ++ be_bytes 8 (8 * len).

(** Four bytes, most significant first, as one word. *)
Fixpoint words_of_bytes (bs : list Z) : list Z :=
  match bs with
  | b3 :: b2 :: b1 :: b0 :: rest =>
      (((b3 * 256 + b2) * 256 + b1) * 256 + b0) :: words_of_bytes rest
  | _ => []
  end.

(** The message schedule (section 6.2.2, step 1), most recent word first:
    [extend n ws] adds [n] words to a reversed schedule [ws]. *)
Fixpoint extend (n : nat) (ws : list Z) : list Z :=
  match n with
  | O => ws
  | S n' =>
      let w := add32 (add32 (add32 (ssig1 (nth 1 ws 0)) (nth 6 ws 0))
                            (ssig0 (nth 14 ws 0)))
                     (nth 15 ws 0) in
      extend n' (w :: ws)
  end.

Definition schedule (block : list Z) : list Z :=
  rev (extend 48 (rev block)).

(** One round (step 3) and the sixty-four rounds of a block. *)
Definition round (s : Words8) (kw : Z * Z) : Words8 :=
  let t1 := add32 (add32 (add32 (add32 (wh s) (bsig1 (we s)))
                                (Ch (we s) (wf s) (wg s)))
                         (fst kw))
                  (snd kw) in
  let t2 := add32 (bsig0 (wa s)) (Maj (wa s) (wb s) (wc s)) in
  mkWords8 (add32 t1 t2) (wa s) (wb s) (wc s) (add32 (wd s) t1) (we s) (wf s) (wg s).

Definition compress (h : Words8) (block : list Z) : Words8 :=
  let s := fold_left round (combine K (schedule block)) h in
  mkWords8 (add32 (wa h) (wa s)) (add32 (wb h) (wb s))
           (add32 (wc h) (wc s)) (add32 (wd h) (wd s))
           (add32 (we h) (we s)) (add32 (wf h) (wf s))
           (add32 (wg h) (wg s)) (add32 (wh h) (wh s)).

(** The blocks of sixteen words of a padded message, hashed in turn. *)
Fixpoint hash_blocks (fuel : nat) (h : Words8) (ws : list Z) : Words8 :=
  match fuel, ws with
  | S fuel', _ :: _ => hash_blocks fuel' (compress h (firstn 16 ws)) (skipn 16 ws)
  | _, _ => h
  end.

Definition digest_bytes (h : Words8) : list Z :=
  flat_map (be_bytes 4) [wa h; wb h; wc h; wd h; we h; wf h; wg h; wh h].

Definition sha256 (msg : list Z) : list Z :=
  let ws := words_of_bytes (pad msg) in
  digest_bytes (hash_blocks (List.length ws) H_init ws).

(** HMAC (RFC 2104) with block size 64. *)
Definition block_key (key : list Z) : list Z :=
  let k := if (64 <? Z.of_nat (List.length key)) then sha256 key else key in
  k ++ repeat 0 (64 - List.length k).

Definition hmac (key msg : list Z) : list Z :=
  let k := block_key key in
  sha256 (map (Z.lxor 92) k ++ sha256 (map (Z.lxor 54) k ++ msg)).

(** Strings as bytes, and [digest('hex')]: two lowercase digits a byte. *)
Definition bytes_of_string (s : string) : list Z :=
  map (fun c => Z.of_nat (nat_of_ascii c)) (list_ascii_of_string s).

Definition hex_digit (d : Z) : ascii :=
  nth (Z.to_nat (d mod 16))
      (list_ascii_of_string "0123456789abcdef") "0"%char.

Fixpoint hex_of_bytes (bs : list Z) : string :=
  match bs with
  | [] => EmptyString
  | b :: rest => String (hex_digit (b / 16)) (String (hex_digit b) (hex_of_bytes rest))
  end.

Definition sha256_hex (msg : string) : string :=
  hex_of_bytes (sha256 (bytes_of_string msg)).

Definition hmac_sha256_hex (secret msg : string) : string :=
  hex_of_bytes (hmac (bytes_of_string secret) (bytes_of_string msg)).

End SHA256.

(* ================================================================== *)
(** * The data model ([src/types/webhook.ts]) *)

Record YaYaWebhookPayload : Type := {
  id : string;
  amount : Z;
  currency : string;
  created_at_time : Z;
  timestamp : Z;
  cause : string;
  full_name : string;
  account_name : string;
  invoice_url : string
}.

(** [error?] and [timestamp?] are optional fields. *)
Record WebhookVerificationResult : Type := {
  isValid : bool;
  error : option string;
  result_timestamp : option Z
}.

(** [processedAt] is a [Date], held as milliseconds since the epoch. *)
Record WebhookProcessingResult : Type := {
  success : bool;
  message : string;
  transactionId : option string;
  processedAt : Z
}.

Record WebhookConfig : Type := {
  secret : string;
  timestampTolerance : Z;
  trustedIps : list string
}.

(* ================================================================== *)
(** * Effects: exceptions, the logger, the clock, the response *)

(** A thrown value: an [Error] with its name and message. *)
Inductive Exn : Type :=
| JsError (name : string) (what : string).

(** The values handed to the logger and to [res.json]. *)
#[local] Unset Elimination Schemes.
Inductive JsValue : Type :=
| VUndefined
| VBool (b : bool)
| VNumber (n : Z)
| VString (s : string)
| VDate (ms : Z)
| VError (e : Exn)
| VArray (items : list JsValue)
| VObject (fields : list (string * JsValue)).
#[local] Set Elimination Schemes.

Definition VOptString (o : option string) : JsValue :=
  match o with Some s => VString s | None => VUndefined end.

Inductive Level : Type := Info | Warn | Error.

Record LogEntry : Type := {
  level : Level;
  text : string;
  meta : JsValue
}.

(** What [res.status(code).json(body)] sends. *)
Record HttpResponse : Type := {
  status : Z;
  json : JsValue
}.

(** A callback queued by [setImmediate]: the closure of [handleWebhook]
    over the payload it captured. *)
Inductive Task : Type :=
| ProcessLater (payload : YaYaWebhookPayload).

(** The ambient state of the process.  The logger ([src/utils/logger], a
    module outside the sources) is a parameter of the state: [transport]
    tells, from the entries written so far and the entry at hand, whether the
    call returns ([None], the entry is written) or throws. *)
Record State : Type := {
  NODE_ENV : option string;
  clock : Z;
  transport : list LogEntry -> LogEntry -> option Exn;
  log : list LogEntry;
  response : option HttpResponse;
  immediates : list Task
}.

Definition with_clock (c : Z) (s : State) : State :=
  {| NODE_ENV := NODE_ENV s; clock := c; transport := transport s;
     log := log s; response := response s; immediates := immediates s |}.

Definition with_log (l : list LogEntry) (s : State) : State :=
  {| NODE_ENV := NODE_ENV s; clock := clock s; transport := transport s;
     log := l; response := response s; immediates := immediates s |}.

Definition with_response (r : option HttpResponse) (s : State) : State :=
  {| NODE_ENV := NODE_ENV s; clock := clock s; transport := transport s;
     log := log s; response := r; immediates := immediates s |}.

Definition with_immediates (q : list Task) (s : State) : State :=
  {| NODE_ENV := NODE_ENV s; clock := clock s; transport := transport s;
     log := log s; response := response s; immediates := q |}.

(** How a call ends: it throws, or it returns a value.  For an [async]
    function these are the rejection and the resolution of its promise. *)
Inductive Outcome (A : Type) : Type :=
| Threw (e : Exn)
| Returned (a : A).

Arguments Threw {A} e.
Arguments Returned {A} a.

Definition M (A : Type) : Type := State -> State * Outcome A.

Definition ret {A : Type} (a : A) : M A := fun s => (s, Returned a).

Definition throw {A : Type} (e : Exn) : M A := fun s => (s, Threw e).

Definition bind {A B : Type} (c : M A) (k : A -> M B) : M B :=
  fun s =>
    match c s with
    | (s', Returned a) => k a s'
    | (s', Threw e) => (s', Threw e)
    end.

(** [try { body } catch (error) { handler }] *)
Definition try_catch {A : Type} (body : M A) (handler : Exn -> M A) : M A :=
  fun s =>
    match body s with
    | (s', Threw e) => handler e s'
    | (s', Returned a) => (s', Returned a)
    end.

Declare Scope js_scope.
Delimit Scope js_scope with js.
Notation "x <- c ;; k" := (bind c (fun x => k))
  (at level 61, c at next level, right associativity) : js_scope.
Notation "c ;; k" := (bind c (fun _ => k))
  (at level 61, right associativity) : js_scope.
Local Open Scope js_scope.

(** [Date.now()] and [new Date()] read the clock. *)
Definition Date_now : M Z := fun s => (s, Returned (clock s)).

(** [process.env.NODE_ENV] *)
Definition process_env_NODE_ENV : M (option string) :=
  fun s => (s, Returned (NODE_ENV s)).

(** [await new Promise(resolve => setTimeout(resolve, ms))]: the timer fires
    once [ms] milliseconds have passed. *)
Definition sleep (ms : Z) : M unit :=
  fun s => (with_clock (clock s + ms) s, Returned tt).

(** [logger.info], [logger.warn] and [logger.error]. *)
Definition logger_call (lvl : Level) (msg : string) (m : JsValue) : M unit :=
  fun s =>
    let entry := {| level := lvl; text := msg; meta := m |} in
    match transport s (log s) entry with
    | Some e => (s, Threw e)
    | None => (with_log (log s ++ [entry]) s, Returned tt)
    end.

Definition logger_info := logger_call Info.
Definition logger_warn := logger_call Warn.
Definition logger_error := logger_call Error.

(** [res.status(code).json(body)]: the first call sends the response; a
    second one throws, the headers being sent already. *)
Definition ERR_HTTP_HEADERS_SENT : Exn :=
  JsError "ERR_HTTP_HEADERS_SENT" "Cannot set headers after they are sent to the client".

Definition res_status_json (code : Z) (body : JsValue) : M unit :=
  fun s =>
    match response s with
    | Some _ => (s, Threw ERR_HTTP_HEADERS_SENT)
    | None => (with_response (Some {| status := code; json := body |}) s, Returned tt)
    end.

(** [setImmediate(callback)] *)
Definition setImmediate (t : Task) : M unit :=
  fun s => (with_immediates (immediates s ++ [t]) s, Returned tt).

(* ================================================================== *)
(** * Verification ([src/services/webhookVerification.ts]) *)

(** The string that is signed: the nine fields, joined by the empty
    string. *)
Definition createSignedPayload (payload : YaYaWebhookPayload) : string :=
  Js.join "" [
    id payload;
    Js.number_toString (amount payload);
    currency payload;
    Js.number_toString (created_at_time payload);
    Js.number_toString (timestamp payload);
    cause payload;
    full_name payload;
    account_name payload;
    invoice_url payload
  ].

Definition generateSignature (payload : YaYaWebhookPayload) (secret : string) : string :=
  let signedPayload := createSignedPayload payload in
  SHA256.hmac_sha256_hex secret signedPayload.

(** The result of [verifyTimestamp]: [{ isValid: boolean; error?: string }]. *)
Record TimestampVerification : Type := {
  ts_isValid : bool;
  ts_error : option string
}.

(** [x > tolerance / 1000] for an integer [x], the quotient being exact. *)
Definition exceeds (x tolerance : Z) : bool :=
  negb (Qle_bool (inject_Z x) (tolerance # 1000)).

Definition timestamp_error (timeDifference tolerance : Z) : string :=
  "Timestamp too old. Difference: " ++ Js.number_toString timeDifference ++
  "s, Tolerance: " ++ Js.thousandth_toString tolerance ++ "s".

Definition verifyTimestamp (receivedTimestamp tolerance : Z) : M TimestampVerification :=
  now <- Date_now ;;
  let currentTime := now / 1000 in
  let timeDifference := Z.abs (currentTime - receivedTimestamp) in
  if exceeds timeDifference tolerance then
    ret {| ts_isValid := false;
           ts_error := Some (timestamp_error timeDifference tolerance) |}
  else
    ret {| ts_isValid := true; ts_error := None |}.

Definition isTrustedIp (clientIp : string) (config : WebhookConfig) : M bool :=
  env <- process_env_NODE_ENV ;;
  if Js.strict_eq env "development" && String.eqb clientIp "::1" then
    ret true
  else
    ret (Js.includes (trustedIps config) clientIp).

(** [signature] is typed [string] but comes from a header that may be
    absent, hence the [option]. *)
Definition verifyWebhook (payload : YaYaWebhookPayload) (signature : option string)
    (clientIp : string) (config : WebhookConfig) : M WebhookVerificationResult :=
  try_catch
    (trusted <- isTrustedIp clientIp config ;;
     if negb trusted then
       logger_warn ("Untrusted IP address: " ++ clientIp) VUndefined ;;
       ret {| isValid := false;
              error := Some "Untrusted IP address";
              result_timestamp := None |}
     else
       let expectedSignature := generateSignature payload (secret config) in
       if Js.strict_neq signature expectedSignature then
         logger_warn "Invalid signature received"
           (VObject [("received", VOptString signature);
                     ("expected", VString expectedSignature)]) ;;
         ret {| isValid := false;
                error := Some "Invalid signature";
                result_timestamp := None |}
       else
         timestampVerification <-
           verifyTimestamp (timestamp payload) (timestampTolerance config) ;;
         if negb (ts_isValid timestampVerification) then
           logger_warn "Timestamp verification failed"
             (VObject [("received", VNumber (timestamp payload));
                       ("tolerance", VNumber (timestampTolerance config))]) ;;
           ret {| isValid := false;
                  error := ts_error timestampVerification;
                  result_timestamp := None |}
         else
           logger_info "Webhook verification successful"
             (VObject [("transactionId", VString (id payload));
                       ("amount", VNumber (amount payload));
                       ("currency", VString (currency payload))]) ;;
           ret {| isValid := true;
                  error := None;
                  result_timestamp := Some (timestamp payload) |})
    (fun error =>
       logger_error "Webhook verification error" (VObject [("error", VError error)]) ;;
       ret {| isValid := false;
              error := Some "Verification failed";
              result_timestamp := None |}).

(* ================================================================== *)
(** * Processing ([src/services/webhookProcessor.ts]) *)

Definition updateTransactionStatus (payload : YaYaWebhookPayload) : M unit :=
  logger_info "Transaction status updated"
    (VObject [("transactionId", VString (id payload))]).

Definition sendCustomerNotification (payload : YaYaWebhookPayload) : M unit :=
  logger_info "Customer notification sent"
    (VObject [("customer", VString (full_name payload));
              ("amount", VNumber (amount payload))]).

Definition updateAccountingSystem (payload : YaYaWebhookPayload) : M unit :=
  logger_info "Accounting system updated"
    (VObject [("transactionId", VString (id payload));
              ("amount", VNumber (amount payload))]).

Definition simulateProcessing : M unit := sleep 100.

Definition VProcessingResult (r : WebhookProcessingResult) : JsValue :=
  VObject [("success", VBool (success r));
           ("message", VString (message r));
           ("transactionId", VOptString (transactionId r));
           ("processedAt", VDate (processedAt r))].

(** The [try] block of [processWebhook]. *)
Definition processWebhook_steps (payload : YaYaWebhookPayload) : M WebhookProcessingResult :=
  logger_info "Processing webhook"
    (VObject [("transactionId", VString (id payload));
              ("amount", VNumber (amount payload));
              ("currency", VString (currency payload));
              ("accountName", VString (account_name payload))]) ;;
  simulateProcessing ;;
  updateTransactionStatus payload ;;
  sendCustomerNotification payload ;;
  updateAccountingSystem payload ;;
  now <- Date_now ;;
  let result := {| success := true;
                   message := "Webhook processed successfully";
                   transactionId := Some (id payload);
                   processedAt := now |} in
  logger_info "Webhook processing completed" (VProcessingResult result) ;;
  ret result.

(** The [catch] block of [processWebhook]. *)
Definition processWebhook_failed (payload : YaYaWebhookPayload) (error : Exn)
    : M WebhookProcessingResult :=
  logger_error "Webhook processing failed"
    (VObject [("error", VError error);
              ("transactionId", VString (id payload))]) ;;
  now <- Date_now ;;
  ret {| success := false;
         message := "Webhook processing failed";
         transactionId := Some (id payload);
         processedAt := now |}.

(** An [async] function: [Returned] is the resolution of the promise,
    [Threw] its rejection. *)
Definition processWebhook (payload : YaYaWebhookPayload) : M WebhookProcessingResult :=
  try_catch (processWebhook_steps payload) (processWebhook_failed payload).

(* ================================================================== *)
(** * The controller ([src/controllers/webhookController.ts]) *)

(** What [handleWebhook] reads of the Express request: the errors collected
    by the [validationRules] middleware, the parsed body, the
    [yaya-signature] header and the two sources of the client address. *)
Record Request : Type := {
  validationResult : list JsValue;
  body : YaYaWebhookPayload;
  header_yaya_signature : option string;
  ip : option string;
  connection_remoteAddress : option string
}.

Definition VPayload (p : YaYaWebhookPayload) : JsValue :=
  VObject [("id", VString (id p));
           ("amount", VNumber (amount p));
           ("currency", VString (currency p));
           ("created_at_time", VNumber (created_at_time p));
           ("timestamp", VNumber (timestamp p));
           ("cause", VString (cause p));
           ("full_name", VString (full_name p));
           ("account_name", VString (account_name p));
           ("invoice_url", VString (invoice_url p))].

(** [req.ip || req.connection.remoteAddress || ''] *)
Definition client_address (req : Request) : string :=
  match Js.or_else (Js.or_else (ip req) (connection_remoteAddress req)) (Some "") with
  | Some a => a
  | None => ""
  end.

Definition isEmpty (errors : list JsValue) : bool :=
  match errors with [] => true | _ :: _ => false end.

(** The callback given to [setImmediate]. *)
Definition deferred_processing (payload : YaYaWebhookPayload) : M unit :=
  try_catch
    (processingResult <- processWebhook payload ;;
     if negb (success processingResult) then
       logger_error "Webhook processing failed"
         (VObject [("transactionId", VString (id payload));
                   ("error", VString (message processingResult))])
     else
       ret tt)
    (fun error =>
       logger_error "Async webhook processing error"
         (VObject [("transactionId", VString (id payload));
                   ("error", VError error)])).

Definition run_task (t : Task) : M unit :=
  match t with
  | ProcessLater payload => deferred_processing payload
  end.

Definition handleWebhook (req : Request) (webhookConfig : WebhookConfig) : M unit :=
  try_catch
    (let errors := validationResult req in
     if negb (isEmpty errors) then
       logger_warn "Webhook validation failed"
         (VObject [("errors", VArray errors); ("body", VPayload (body req))]) ;;
       res_status_json 400
         (VObject [("error", VString "Invalid request body");
                   ("details", VArray errors)])
     else
       let payload := body req in
       let signature := header_yaya_signature req in
       let clientIp := client_address req in
       verificationResult <- verifyWebhook payload signature clientIp webhookConfig ;;
       if negb (isValid verificationResult) then
         logger_warn "Webhook verification failed"
           (VObject [("error", VOptString (error verificationResult));
                     ("transactionId", VString (id payload));
                     ("clientIp", VString clientIp)]) ;;
         res_status_json 401
           (VObject [("error", VString "Webhook verification failed");
                     ("message", VOptString (error verificationResult))])
       else
         res_status_json 200
           (VObject [("success", VBool true);
                     ("message", VString "Webhook received successfully");
                     ("transactionId", VString (id payload))]) ;;
         setImmediate (ProcessLater payload))
    (fun error =>
       logger_error "Webhook handler error" (VObject [("error", VError error)]) ;;
       res_status_json 500
         (VObject [("error", VString "Internal server error");
                   ("message", VString "Failed to process webhook")])).

(** The event loop after the handler has returned: the queued callbacks run
    in turn.  A callback that rejects is an unhandled rejection, on which
    [src/index.ts] logs and exits: the callbacks after it do not run. *)
Fixpoint run_tasks (ts : list Task) : M unit :=
  match ts with
  | [] => ret tt
  | t :: rest => run_task t ;; run_tasks rest
  end.

Definition run_immediates : M unit :=
  fun s => run_tasks (immediates s) (with_immediates [] s).

(** One request from arrival to the end of its deferred processing. *)
Definition serve (req : Request) (webhookConfig : WebhookConfig) : M unit :=
  handleWebhook req webhookConfig ;; run_immediates.

(** [testWebhook]: the test endpoint of the controller. *)
Definition testWebhook : M unit :=
  env <- process_env_NODE_ENV ;;
  if Js.strict_eq env "production" then
    res_status_json 404 (VObject [("error", VString "Not found")])
  else
    res_status_json 200
      (VObject [("message", VString "Test endpoint available");
                ("instructions",
                 VString "Use this endpoint to test webhook functionality in development")]).

(* ================================================================== *)
(** * Configuration ([src/config/index.ts]) *)

(** [process.env], once [dotenv.config()] has run: a variable is absent or
    holds a string. *)
Definition Env : Type := string -> option string.

(** [s.split(sep)] for a separator of one character. *)
Fixpoint split (sep : ascii) (s : string) : list string :=
  match s with
  | EmptyString => [EmptyString]
  | String c r =>
      if Ascii.eqb c sep then EmptyString :: split sep r
      else match split sep r with
           | h :: t => String c h :: t
           | [] => [String c EmptyString]
           end
  end.

(** [v || d] for a variable [v] and a default [d]: an absent and an empty
    variable both give the default. *)
Definition or_default (v : option string) (d : string) : string :=
  match Js.or_else v (Some d) with
  | Some x => x
  | None => d
  end.

(** [!v] on a variable. *)
Definition falsy (v : option string) : bool :=
  match v with
  | None => true
  | Some "" => true
  | Some _ => false
  end.

(** [config.server.nodeEnv] *)
Definition config_server_nodeEnv (env : Env) : string :=
  or_default (env "NODE_ENV") "development".

(** [config.webhook.secret] *)
Definition default_secret : string := "default_secret_change_in_production".

Definition config_webhook_secret (env : Env) : string :=
  or_default (env "WEBHOOK_SECRET") default_secret.

(** [config.webhook.trustedIps]: [process.env.TRUSTED_IPS?.split(',') || []];
    an array is truthy, also the array of one empty string. *)
Definition config_webhook_trustedIps (env : Env) : list string :=
  match env "TRUSTED_IPS" with
  | Some v => split "," v
  | None => []
  end.

(** [config.webhook]; [tolerance] is the number that [parseInt] read for
    [timestampTolerance]. *)
Definition config_webhook (env : Env) (tolerance : Z) : WebhookConfig :=
  {| secret := config_webhook_secret env;
     timestampTolerance := tolerance;
     trustedIps := config_webhook_trustedIps env |}.

Definition warning_default_secret : string :=
  "WARNING: Using default webhook secret. Change WEBHOOK_SECRET in production!".

Definition warning_no_trusted_ips : string :=
  "WARNING: No trusted IPs configured. Add TRUSTED_IPS for production security.".

(** [validateConfig]: the lines it gives to [console.warn], in order, and
    how it ends.  The [config] it reads is the one built from the same
    environment. *)
Definition validateConfig (env : Env) : list string * Outcome unit :=
  let requiredEnvVars := ["WEBHOOK_SECRET"] in
  let missingVars := filter (fun varName => falsy (env varName)) requiredEnvVars in
  if (0 <? List.length missingVars)%nat then
    ([], Threw (JsError "Error"
                  ("Missing required environment variables: " ++ Js.join ", " missingVars)))
  else
    (((if String.eqb (config_webhook_secret env) default_secret
       then [warning_default_secret] else []) ++
      (if (List.length (config_webhook_trustedIps env) =? 0)%nat
       then [warning_no_trusted_ips] else []))%list,
     Returned tt).

(* ================================================================== *)
(** * Vocabulary of the properties *)

(** The value a computation returns from a state, if it returns. *)
Definition result_of {A : Type} (c : M A) (s : State) : option A :=
  match snd (c s) with
  | Returned a => Some a
  | Threw _ => None
  end.

Definition state_after {A : Type} (c : M A) (s : State) : State := fst (c s).

(** [wp c Q s]: run from [s], the computation [c] ends in a state and an
    outcome that satisfy [Q]. *)
Definition wp {A : Type} (c : M A) (Q : State -> Outcome A -> Prop) (s : State) : Prop :=
  Q (fst (c s)) (snd (c s)).

(** A computation leaves a component of the state as it found it. *)
Definition preserves {A X : Type} (proj : State -> X) (c : M A) : Prop :=
  forall s, proj (fst (c s)) = proj s.

(** A component of the state that the log does not touch, and so on. *)
Definition apart_from_log {X : Type} (proj : State -> X) : Prop :=
  forall l s, proj (with_log l s) = proj s.

Definition apart_from_clock {X : Type} (proj : State -> X) : Prop :=
  forall c s, proj (with_clock c s) = proj s.

Definition apart_from_response {X : Type} (proj : State -> X) : Prop :=
  forall r s, proj (with_response r s) = proj s.

(** The body [res.json] sends with the status 200. *)
Definition received_body (payload : YaYaWebhookPayload) : HttpResponse :=
  {| status := 200;
     json := VObject [("success", VBool true);
                      ("message", VString "Webhook received successfully");
                      ("transactionId", VString (id payload))] |}.

(** The logger returns from every call. *)
Definition logger_returns (s : State) : Prop :=
  forall l e, transport s l e = None.

(** The logger returns from every call of [logger.error]. *)
Definition error_logging_returns (s : State) : Prop :=
  forall l e, level e = Error -> transport s l e = None.

(** The reasons of a rejection, and the [error] string that carries each
    of them in the code. *)
Inductive ErrorReason : Type :=
| UntrustedIp
| InvalidSignature
| TimestampOutOfRange (delta tolerance : Z)
| InternalFault.

Definition reason_message (r : ErrorReason) : string :=
  match r with
  | UntrustedIp => "Untrusted IP address"
  | InvalidSignature => "Invalid signature"
  | TimestampOutOfRange delta tolerance => timestamp_error delta tolerance
  | InternalFault => "Verification failed"
  end.

Definition rejected (r : ErrorReason) : WebhookVerificationResult :=
  {| isValid := false; error := Some (reason_message r); result_timestamp := None |}.

Definition accepted (payload : YaYaWebhookPayload) : WebhookVerificationResult :=
  {| isValid := true; error := None; result_timestamp := Some (timestamp payload) |}.

(** The three checks of [verifyWebhook], each as the code computes it. *)
Definition ip_check (s : State) (clientIp : string) (config : WebhookConfig) : bool :=
  (Js.strict_eq (NODE_ENV s) "development" && String.eqb clientIp "::1")
  || Js.includes (trustedIps config) clientIp.

Definition signature_check (payload : YaYaWebhookPayload) (signature : option string)
    (config : WebhookConfig) : bool :=
  Js.strict_eq signature (generateSignature payload (secret config)).

(** The distance, in seconds, between the clock and a timestamp. *)
Definition delta (s : State) (receivedTimestamp : Z) : Z :=
  Z.abs (clock s / 1000 - receivedTimestamp).

Definition timestamp_check (s : State) (payload : YaYaWebhookPayload)
    (config : WebhookConfig) : bool :=
  1000 * delta s (timestamp payload) <=? timestampTolerance config.

(** The checks as [verifyWebhook] makes them: [isTrustedIp] returns [true];
    the signature is not [!==] to the expected one; [verifyTimestamp]
    returns a valid result. *)
Definition ip_trusted (s : State) (clientIp : string) (config : WebhookConfig) : Prop :=
  result_of (isTrustedIp clientIp config) s = Some true.

Definition signature_matches (payload : YaYaWebhookPayload) (signature : option string)
    (config : WebhookConfig) : Prop :=
  Js.strict_neq signature (generateSignature payload (secret config)) = false.

Definition timestamp_fresh (s : State) (payload : YaYaWebhookPayload)
    (config : WebhookConfig) : Prop :=
  option_map ts_isValid
    (result_of (verifyTimestamp (timestamp payload) (timestampTolerance config)) s)
  = Some true.

(** The verdict of the three checks taken in order: the first that fails
    gives the reason. *)
Definition verdict (s : State) (payload : YaYaWebhookPayload) (signature : option string)
    (clientIp : string) (config : WebhookConfig) : WebhookVerificationResult :=
  if negb (ip_check s clientIp config) then rejected UntrustedIp
  else if negb (signature_check payload signature config) then rejected InvalidSignature
  else if negb (timestamp_check s payload config) then
    rejected (TimestampOutOfRange (delta s (timestamp payload)) (timestampTolerance config))
  else accepted payload.

(** The entry each outcome of [verifyWebhook] writes to the log. *)
Definition warn_untrusted (clientIp : string) : LogEntry :=
  {| level := Warn; text := "Untrusted IP address: " ++ clientIp; meta := VUndefined |}.

Definition warn_signature (signature : option string) (expected : string) : LogEntry :=
  {| level := Warn; text := "Invalid signature received";
     meta := VObject [("received", VOptString signature); ("expected", VString expected)] |}.

Definition warn_timestamp (payload : YaYaWebhookPayload) (config : WebhookConfig) : LogEntry :=
  {| level := Warn; text := "Timestamp verification failed";
     meta := VObject [("received", VNumber (timestamp payload));
                      ("tolerance", VNumber (timestampTolerance config))] |}.

Definition info_verified (payload : YaYaWebhookPayload) : LogEntry :=
  {| level := Info; text := "Webhook verification successful";
     meta := VObject [("transactionId", VString (id payload));
                      ("amount", VNumber (amount payload));
                      ("currency", VString (currency payload))] |}.

Definition error_verification (e : Exn) : LogEntry :=
  {| level := Error; text := "Webhook verification error";
     meta := VObject [("error", VError e)] |}.

(** The entry the callback of [setImmediate] writes when [processWebhook]
    rejects. *)
Definition error_async (payload : YaYaWebhookPayload) (e : Exn) : LogEntry :=
  {| level := Error; text := "Async webhook processing error";
     meta := VObject [("transactionId", VString (id payload));
                      ("error", VError e)] |}.

Definition verdict_entry (s : State) (payload : YaYaWebhookPayload)
    (signature : option string) (clientIp : string) (config : WebhookConfig) : LogEntry :=
  if negb (ip_check s clientIp config) then warn_untrusted clientIp
  else if negb (signature_check payload signature config) then
    warn_signature signature (generateSignature payload (secret config))
  else if negb (timestamp_check s payload config) then warn_timestamp payload config
  else info_verified payload.

(** The lowercase hexadecimal digits. *)
Definition is_lower_hex (c : ascii) : bool :=
  let n := nat_of_ascii c in
  (((48 <=? n) && (n <=? 57)) || ((97 <=? n) && (n <=? 102)))%nat.

Definition is_decimal_digit (c : ascii) : bool :=
  let n := nat_of_ascii c in ((48 <=? n) && (n <=? 57))%nat.

Fixpoint every (f : ascii -> bool) (s : string) : bool :=
  match s with
  | EmptyString => true
  | String c r => f c && every f r
  end.






(** The payload of the specification's scenario, at timestamp [t]. *)
Definition scenario_payload (t : Z) : YaYaWebhookPayload :=
  {| id := "1dd2854e-3a79-4548-ae36-97e4a18ebf81";
     amount := 100;
     currency := "ETB";
     created_at_time := 1673381836;
     timestamp := t;
     cause := "Testing";
     full_name := "Abebe Kebede";
     account_name := "abebekebede1";
     invoice_url := "https://yayawallet.com/en/invoice/xxxx" |}.

Definition scenario_config (ips : list string) : WebhookConfig :=
  {| secret := "s3cr3t"; timestampTolerance := 300000; trustedIps := ips |}.

(** A process in the given mode, its clock at [ms], whose logger returns
    unless [fails] holds of the entry. *)
Definition process_state (env : option string) (ms : Z) (fails : LogEntry -> bool) : State :=
  {| NODE_ENV := env;
     clock := ms;
     transport := fun _ e => if fails e then Some (JsError "Error" "transport closed") else None;
     log := [];
     response := None;
     immediates := [] |}.

Definition never (e : LogEntry) : bool := false.

(** The scenario: the clock at the payload's timestamp, one trusted
    address, and the signature of the payload under the secret. *)
Definition scenario_time : Z := 1701272333.

Definition scenario_signature : string :=
  "7ac6b89f81ac2fe50969c6884502749d2d27b86c393fa57ffdb931f408423e0e".

Definition scenario_state (env : string) (fails : LogEntry -> bool) : State :=
  process_state (Some env) (scenario_time * 1000) fails.

Definition at_warn (e : LogEntry) : bool :=
  match level e with Warn => true | _ => false end.

Definition at_info_text (t : string) (e : LogEntry) : bool :=
  match level e with Info => String.eqb (text e) t | _ => false end.

(** The responses of [handleWebhook] other than the 200 one. *)
Definition bad_request (errors : list JsValue) : HttpResponse :=
  {| status := 400;
     json := VObject [("error", VString "Invalid request body");
                      ("details", VArray errors)] |}.

Definition unauthorized (reason : option string) : HttpResponse :=
  {| status := 401;
     json := VObject [("error", VString "Webhook verification failed");
                      ("message", VOptString reason)] |}.

Definition internal_error : HttpResponse :=
  {| status := 500;
     json := VObject [("error", VString "Internal server error");
                      ("message", VString "Failed to process webhook")] |}.

(** The entries [processWebhook] writes when all its steps return, the
    processing being finished at [finished]. *)
Definition processing_entries (payload : YaYaWebhookPayload) (finished : Z) : list LogEntry :=
  [ {| level := Info; text := "Processing webhook";
       meta := VObject [("transactionId", VString (id payload));
                        ("amount", VNumber (amount payload));
                        ("currency", VString (currency payload));
                        ("accountName", VString (account_name payload))] |};
    {| level := Info; text := "Transaction status updated";
       meta := VObject [("transactionId", VString (id payload))] |};
    {| level := Info; text := "Customer notification sent";
       meta := VObject [("customer", VString (full_name payload));
                        ("amount", VNumber (amount payload))] |};
    {| level := Info; text := "Accounting system updated";
       meta := VObject [("transactionId", VString (id payload));
                        ("amount", VNumber (amount payload))] |};
    {| level := Info; text := "Webhook processing completed";
       meta := VProcessingResult
                 {| success := true;
                    message := "Webhook processed successfully";
                    transactionId := Some (id payload);
                    processedAt := finished |} |} ].

(** The entry the [catch] block of [processWebhook] writes. *)
Definition error_processing (payload : YaYaWebhookPayload) (e : Exn) : LogEntry :=
  {| level := Error; text := "Webhook processing failed";
     meta := VObject [("error", VError e);
                      ("transactionId", VString (id payload))] |}.

(** A string without a comma. *)
Definition comma_free (s : string) : Prop :=
  ~ In ","%char (list_ascii_of_string s).

(** An environment that holds the listed variables and no other. *)
Fixpoint env_of (vars : list (string * string)) : Env :=
  fun name =>
    match vars with
    | [] => None
    | (k, v) :: rest => if String.eqb name k then Some v else env_of rest name
    end.

(* ================================================================== *)
(** * Properties of the primitives *)








Lemma strict_neq_false (a : option string) (b : string) :
  Js.strict_neq a b = false <-> a = Some b.
Proof.
  destruct a as [x|]; simpl.
  - rewrite negb_false_iff, String.eqb_eq. split; [now intros -> | now intros [= ->]].
  - split; discriminate.
Qed.

Lemma strict_neq_true (a : option string) (b : string) :
  Js.strict_neq a b = true <-> a <> Some b.
Proof.
  rewrite <- strict_neq_false. destruct (Js.strict_neq a b); split; congruence.
Qed.

Lemma exceeds_spec (x tolerance : Z) :
  exceeds x tolerance = (tolerance <? 1000 * x).
Proof.
  unfold exceeds, Qle_bool, inject_Z. simpl Qnum. simpl Qden.
  destruct (Z.leb_spec (x * 1000) (tolerance * 1));
    destruct (Z.ltb_spec tolerance (1000 * x)); simpl; try reflexivity; lia.
Qed.

(* ================================================================== *)
(** * Properties of the digest *)

(** The implementation agrees with the published test vectors: the digest
    of ["abc"] (FIPS 180-4), and an HMAC with a short key. *)
Example sha256_abc :
  SHA256.sha256_hex "abc" =
  "ba7816bf8f01cfea414140de5dae2223b00361a396177a9cb410ff61f20015ad".
Proof. vm_compute. reflexivity. Qed.

Example sha256_two_blocks :
  SHA256.sha256_hex "abcdbcdecdefdefgefghfghighijhijkijkljklmklmnlmnomnopnopq" =
  "248d6a61d20638b8e5c026930c3e6039a33ce45964ff2167f6ecedd419db06c1".
Proof. vm_compute. reflexivity. Qed.

Example hmac_sha256_fox :
  SHA256.hmac_sha256_hex "key" "The quick brown fox jumps over the lazy dog" =
  "f7bc83f430538424b13298e6aa6fb143ef4d59a14946175997479dbc2d1a3cd8".
Proof. vm_compute. reflexivity. Qed.

Lemma hex_of_bytes_length (bs : list Z) :
  String.length (SHA256.hex_of_bytes bs) = (2 * List.length bs)%nat.
Proof.
  induction bs as [|b bs IH]; simpl; [reflexivity | rewrite IH; lia].
Qed.

Lemma digest_bytes_length (h : SHA256.Words8) :
  List.length (SHA256.digest_bytes h) = 32%nat.
Proof. destruct h. reflexivity. Qed.

Lemma hmac_sha256_hex_length (key msg : string) :
  String.length (SHA256.hmac_sha256_hex key msg) = 64%nat.
Proof.
  unfold SHA256.hmac_sha256_hex, SHA256.hmac, SHA256.sha256 at 1.
  now rewrite hex_of_bytes_length, digest_bytes_length.
Qed.

Lemma hex_digit_lower (d : Z) : is_lower_hex (SHA256.hex_digit d) = true.
Proof.
  unfold SHA256.hex_digit.
  assert (H : 0 <= d mod 16 < 16) by (apply Z.mod_pos_bound; lia).
  remember (d mod 16) as r eqn:E. clear E d.
  assert (C : r = 0 \/ r = 1 \/ r = 2 \/ r = 3 \/ r = 4 \/ r = 5 \/ r = 6 \/ r = 7 \/
              r = 8 \/ r = 9 \/ r = 10 \/ r = 11 \/ r = 12 \/ r = 13 \/ r = 14 \/ r = 15)
    by lia.
  repeat (destruct C as [-> | C]; [reflexivity|]). now subst.
Qed.

Lemma hex_of_bytes_lower (bs : list Z) :
  every is_lower_hex (SHA256.hex_of_bytes bs) = true.
Proof.
  induction bs as [|b bs IH]; simpl; [reflexivity|].
  now rewrite !hex_digit_lower, IH.
Qed.

Lemma generateSignature_shape (payload : YaYaWebhookPayload) (key : string) :
  String.length (generateSignature payload key) = 64%nat /\
  every is_lower_hex (generateSignature payload key) = true.
Proof.
  split.
  - apply hmac_sha256_hex_length.
  - apply hex_of_bytes_lower.
Qed.

(* ================================================================== *)
(** * How the verification runs *)

Arguments SHA256.hmac_sha256_hex : simpl never.
Arguments generateSignature : simpl never.
Arguments timestamp_error : simpl never.

Lemma isTrustedIp_run (s : State) (clientIp : string) (config : WebhookConfig) :
  isTrustedIp clientIp config s = (s, Returned (ip_check s clientIp config)).
Proof.
  unfold isTrustedIp, ip_check, bind, process_env_NODE_ENV, ret.
  now destruct (Js.strict_eq (NODE_ENV s) "development" && String.eqb clientIp "::1").
Qed.

Lemma verifyTimestamp_run (s : State) (receivedTimestamp tolerance : Z) :
  verifyTimestamp receivedTimestamp tolerance s =
  (s, Returned
        (if tolerance <? 1000 * delta s receivedTimestamp
         then {| ts_isValid := false;
                 ts_error := Some (timestamp_error (delta s receivedTimestamp) tolerance) |}
         else {| ts_isValid := true; ts_error := None |})).
Proof.
  unfold verifyTimestamp, bind, Date_now, ret, delta.
  rewrite exceeds_spec.
  now destruct (tolerance <? 1000 * Z.abs (clock s / 1000 - receivedTimestamp)).
Qed.

Lemma logger_call_returned (s : State) (lvl : Level) (msg : string) (m : JsValue) :
  transport s (log s) {| level := lvl; text := msg; meta := m |} = None ->
  logger_call lvl msg m s =
  (with_log (log s ++ [{| level := lvl; text := msg; meta := m |}]) s, Returned tt).
Proof. unfold logger_call. now intros ->. Qed.

Lemma logger_call_threw (s : State) (lvl : Level) (msg : string) (m : JsValue) (e : Exn) :
  transport s (log s) {| level := lvl; text := msg; meta := m |} = Some e ->
  logger_call lvl msg m s = (s, Threw e).
Proof. unfold logger_call. now intros ->. Qed.

Ltac enter_verifyWebhook :=
  unfold verifyWebhook, try_catch, bind; rewrite isTrustedIp_run.

Ltac reduce_step := cbn [negb]; cbv beta iota.

Ltac logger_returned H :=
  unfold logger_warn, logger_info, logger_error;
  rewrite logger_call_returned by exact H.

Ltac logger_threw H :=
  unfold logger_warn, logger_info, logger_error;
  rewrite (logger_call_threw _ _ _ _ _ H).

(** The four ways [verifyWebhook] returns from its [try] block, each under
    the assumption that the one logger call on its way returns. *)
Lemma verifyWebhook_untrusted s payload signature clientIp config :
  ip_check s clientIp config = false ->
  transport s (log s) (warn_untrusted clientIp) = None ->
  verifyWebhook payload signature clientIp config s =
  (with_log (log s ++ [warn_untrusted clientIp]) s, Returned (rejected UntrustedIp)).
Proof.
  intros Hip Hlog. enter_verifyWebhook. rewrite Hip. reduce_step.
  logger_returned Hlog. reflexivity.
Qed.

Lemma verifyWebhook_bad_signature s payload signature clientIp config :
  ip_check s clientIp config = true ->
  signature_check payload signature config = false ->
  transport s (log s)
    (warn_signature signature (generateSignature payload (secret config))) = None ->
  verifyWebhook payload signature clientIp config s =
  (with_log (log s ++ [warn_signature signature (generateSignature payload (secret config))]) s,
   Returned (rejected InvalidSignature)).
Proof.
  intros Hip Hsig Hlog. enter_verifyWebhook. rewrite Hip. reduce_step.
  unfold signature_check, Js.strict_eq in Hsig. apply negb_false_iff in Hsig.
  rewrite Hsig. logger_returned Hlog. reflexivity.
Qed.

Lemma verifyWebhook_stale s payload signature clientIp config :
  ip_check s clientIp config = true ->
  signature_check payload signature config = true ->
  timestamp_check s payload config = false ->
  transport s (log s) (warn_timestamp payload config) = None ->
  verifyWebhook payload signature clientIp config s =
  (with_log (log s ++ [warn_timestamp payload config]) s,
   Returned (rejected (TimestampOutOfRange (delta s (timestamp payload))
                                           (timestampTolerance config)))).
Proof.
  intros Hip Hsig Hts Hlog. enter_verifyWebhook. rewrite Hip. reduce_step.
  unfold signature_check, Js.strict_eq in Hsig. apply negb_true_iff in Hsig.
  rewrite Hsig, verifyTimestamp_run.
  unfold timestamp_check in Hts. apply Z.leb_gt in Hts. apply Z.ltb_lt in Hts.
  rewrite Hts. cbn [ts_isValid ts_error]. reduce_step.
  logger_returned Hlog. reflexivity.
Qed.

Lemma verifyWebhook_valid s payload signature clientIp config :
  ip_check s clientIp config = true ->
  signature_check payload signature config = true ->
  timestamp_check s payload config = true ->
  transport s (log s) (info_verified payload) = None ->
  verifyWebhook payload signature clientIp config s =
  (with_log (log s ++ [info_verified payload]) s, Returned (accepted payload)).
Proof.
  intros Hip Hsig Hts Hlog. enter_verifyWebhook. rewrite Hip. reduce_step.
  unfold signature_check, Js.strict_eq in Hsig. apply negb_true_iff in Hsig.
  rewrite Hsig, verifyTimestamp_run.
  unfold timestamp_check in Hts. apply Z.leb_le in Hts.
  assert (Hts' : (timestampTolerance config <? 1000 * delta s (timestamp payload)) = false)
    by (apply Z.ltb_ge; exact Hts).
  rewrite Hts'. cbn [ts_isValid ts_error]. reduce_step.
  logger_returned Hlog. reflexivity.
Qed.

(** When the logger call on its way returns, [verifyWebhook] returns the
    verdict of the three checks and writes one entry. *)
Lemma verifyWebhook_returned s payload signature clientIp config :
  transport s (log s) (verdict_entry s payload signature clientIp config) = None ->
  verifyWebhook payload signature clientIp config s =
  (with_log (log s ++ [verdict_entry s payload signature clientIp config]) s,
   Returned (verdict s payload signature clientIp config)).
Proof.
  unfold verdict, verdict_entry. intros Hlog.
  destruct (ip_check s clientIp config) eqn:Hip; cbn [negb] in *.
  - destruct (signature_check payload signature config) eqn:Hsig; cbn [negb] in *.
    + destruct (timestamp_check s payload config) eqn:Hts; cbn [negb] in *.
      * now apply verifyWebhook_valid.
      * now apply verifyWebhook_stale.
    + now apply verifyWebhook_bad_signature.
  - now apply verifyWebhook_untrusted.
Qed.

Lemma verifyWebhook_run s payload signature clientIp config :
  logger_returns s ->
  verifyWebhook payload signature clientIp config s =
  (with_log (log s ++ [verdict_entry s payload signature clientIp config]) s,
   Returned (verdict s payload signature clientIp config)).
Proof. intros Hlog. apply verifyWebhook_returned, Hlog. Qed.

(** When the logger call of the [try] block throws, the [catch] block
    reports an internal fault. *)
Lemma verifyWebhook_caught s payload signature clientIp config e :
  transport s (log s) (verdict_entry s payload signature clientIp config) = Some e ->
  transport s (log s) (error_verification e) = None ->
  verifyWebhook payload signature clientIp config s =
  (with_log (log s ++ [error_verification e]) s, Returned (rejected InternalFault)).
Proof.
  unfold verdict_entry. intros Hthrow Hlog. enter_verifyWebhook.
  destruct (ip_check s clientIp config) eqn:Hip; cbn [negb] in Hthrow; reduce_step.
  - unfold signature_check, Js.strict_eq in Hthrow. rewrite negb_involutive in Hthrow.
    destruct (Js.strict_neq signature (generateSignature payload (secret config))).
    + logger_threw Hthrow. logger_returned Hlog. reflexivity.
    + rewrite verifyTimestamp_run. unfold timestamp_check in Hthrow.
      rewrite Z.leb_antisym, negb_involutive in Hthrow.
      destruct (timestampTolerance config <? 1000 * delta s (timestamp payload));
        cbn [ts_isValid ts_error]; reduce_step;
        logger_threw Hthrow; logger_returned Hlog; reflexivity.
  - logger_threw Hthrow. logger_returned Hlog. reflexivity.
Qed.


(* ================================================================== *)
(** * What a computation leaves untouched *)

Section Frame.

Context {X : Type} (proj : State -> X).

Lemma preserves_ret {A : Type} (a : A) : preserves proj (ret a).
Proof. intros s. reflexivity. Qed.

Lemma preserves_bind {A B : Type} (c : M A) (k : A -> M B) :
  preserves proj c -> (forall a, preserves proj (k a)) -> preserves proj (bind c k).
Proof.
  intros Hc Hk s. unfold bind. specialize (Hc s).
  destruct (c s) as [s1 [e|a]]; simpl in *; [assumption|].
  now rewrite Hk.
Qed.

Lemma preserves_try_catch {A : Type} (c : M A) (h : Exn -> M A) :
  preserves proj c -> (forall e, preserves proj (h e)) -> preserves proj (try_catch c h).
Proof.
  intros Hc Hh s. unfold try_catch. specialize (Hc s).
  destruct (c s) as [s1 [e|a]]; simpl in *; [|assumption].
  now rewrite Hh.
Qed.

Lemma preserves_if {A : Type} (b : bool) (c d : M A) :
  preserves proj c -> preserves proj d -> preserves proj (if b then c else d).
Proof. now destruct b. Qed.

Lemma preserves_Date_now : preserves proj Date_now.
Proof. intros s. reflexivity. Qed.

Lemma preserves_process_env : preserves proj process_env_NODE_ENV.
Proof. intros s. reflexivity. Qed.

Lemma preserves_logger_call lvl msg m :
  apart_from_log proj -> preserves proj (logger_call lvl msg m).
Proof.
  intros H s. unfold logger_call.
  destruct (transport s (log s) _); simpl; [reflexivity | apply H].
Qed.

Lemma preserves_sleep ms : apart_from_clock proj -> preserves proj (sleep ms).
Proof. intros H s. apply H. Qed.

Lemma preserves_res_status_json code b :
  apart_from_response proj -> preserves proj (res_status_json code b).
Proof.
  intros H s. unfold res_status_json.
  destruct (response s); simpl; [reflexivity | apply H].
Qed.

Lemma preserves_verifyWebhook payload signature clientIp config :
  apart_from_log proj -> preserves proj (verifyWebhook payload signature clientIp config).
Proof.
  intros H. unfold verifyWebhook, isTrustedIp, verifyTimestamp,
    logger_warn, logger_info, logger_error.
  repeat first
    [ apply preserves_try_catch | apply preserves_bind | apply preserves_if
    | apply preserves_ret | apply preserves_Date_now | apply preserves_process_env
    | apply preserves_logger_call; exact H | intro ].
Qed.

Lemma preserves_processWebhook payload :
  apart_from_log proj -> apart_from_clock proj -> preserves proj (processWebhook payload).
Proof.
  intros Hl Hc. unfold processWebhook, processWebhook_steps, processWebhook_failed,
    updateTransactionStatus, sendCustomerNotification, updateAccountingSystem,
    simulateProcessing, logger_info, logger_error.
  repeat first
    [ apply preserves_try_catch | apply preserves_bind | apply preserves_ret
    | apply preserves_Date_now | apply preserves_logger_call; exact Hl
    | apply preserves_sleep; exact Hc | intro ].
Qed.

Lemma preserves_deferred_processing payload :
  apart_from_log proj -> apart_from_clock proj ->
  preserves proj (deferred_processing payload).
Proof.
  intros Hl Hc. unfold deferred_processing, logger_error.
  repeat first
    [ apply preserves_processWebhook; assumption
    | apply preserves_try_catch | apply preserves_bind | apply preserves_if
    | apply preserves_ret | apply preserves_logger_call; exact Hl | intro ].
Qed.

Lemma preserves_run_tasks ts :
  apart_from_log proj -> apart_from_clock proj -> preserves proj (run_tasks ts).
Proof.
  intros Hl Hc. induction ts as [|[payload] ts IH]; simpl.
  - apply preserves_ret.
  - apply preserves_bind; [now apply preserves_deferred_processing | intros _; exact IH].
Qed.

End Frame.

Lemma response_apart_from_log : apart_from_log response.
Proof. intros l s. reflexivity. Qed.

Lemma response_apart_from_clock : apart_from_clock response.
Proof. intros c s. reflexivity. Qed.

Lemma transport_apart_from_log : apart_from_log transport.
Proof. intros l s. reflexivity. Qed.

Lemma transport_apart_from_clock : apart_from_clock transport.
Proof. intros c s. reflexivity. Qed.

Lemma immediates_apart_from_log : apart_from_log immediates.
Proof. intros l s. reflexivity. Qed.

(** The deferred callbacks never write the response. *)
Lemma run_immediates_keeps_response (s : State) :
  response (fst (run_immediates s)) = response s.
Proof.
  unfold run_immediates.
  rewrite (preserves_run_tasks response (immediates s)
             response_apart_from_log response_apart_from_clock).
  reflexivity.
Qed.

(* ================================================================== *)
(** * Rules for running the monad *)

Lemma wp_ret {A : Type} (a : A) (Q : State -> Outcome A -> Prop) (s : State) :
  Q s (Returned a) -> wp (ret a) Q s.
Proof. intros H. exact H. Qed.

Lemma wp_bind {A B : Type} (c : M A) (k : A -> M B)
    (Q : State -> Outcome B -> Prop) (s : State) :
  wp c (fun s1 o => match o with
                    | Returned a => wp (k a) Q s1
                    | Threw e => Q s1 (Threw e)
                    end) s ->
  wp (bind c k) Q s.
Proof.
  unfold wp, bind. destruct (c s) as [s1 [e|a]]; simpl; intros H; exact H.
Qed.

Lemma wp_try_catch {A : Type} (c : M A) (h : Exn -> M A)
    (Q : State -> Outcome A -> Prop) (s : State) :
  wp c (fun s1 o => match o with
                    | Threw e => wp (h e) Q s1
                    | Returned a => Q s1 (Returned a)
                    end) s ->
  wp (try_catch c h) Q s.
Proof.
  unfold wp, try_catch. destruct (c s) as [s1 [e|a]]; simpl; intros H; exact H.
Qed.

Lemma wp_logger_call lvl msg m (Q : State -> Outcome unit -> Prop) (s : State) :
  (forall e, transport s (log s) {| level := lvl; text := msg; meta := m |} = Some e ->
             Q s (Threw e)) ->
  (transport s (log s) {| level := lvl; text := msg; meta := m |} = None ->
   Q (with_log (log s ++ [{| level := lvl; text := msg; meta := m |}]) s) (Returned tt)) ->
  wp (logger_call lvl msg m) Q s.
Proof.
  unfold wp, logger_call. intros Ht Hr.
  destruct (transport s (log s) _) as [e|]; simpl; auto.
Qed.

Lemma wp_res_status_json code b (Q : State -> Outcome unit -> Prop) (s : State) :
  (response s <> None -> Q s (Threw ERR_HTTP_HEADERS_SENT)) ->
  (response s = None ->
   Q (with_response (Some {| status := code; json := b |}) s) (Returned tt)) ->
  wp (res_status_json code b) Q s.
Proof.
  unfold wp, res_status_json. intros Ht Hr.
  destruct (response s) as [r|]; simpl; [apply Ht; discriminate | now apply Hr].
Qed.

Lemma wp_setImmediate t (Q : State -> Outcome unit -> Prop) (s : State) :
  Q (with_immediates (immediates s ++ [t]) s) (Returned tt) -> wp (setImmediate t) Q s.
Proof. intros H. exact H. Qed.

(** A computation that touches neither the response nor the queue. *)
Lemma wp_framed {A : Type} (c : M A) (Q : State -> Outcome A -> Prop) (s : State) :
  preserves response c -> preserves immediates c ->
  (forall s1 o, response s1 = response s -> immediates s1 = immediates s -> Q s1 o) ->
  wp c Q s.
Proof. intros Hr Hi H. apply H; [apply Hr | apply Hi]. Qed.

Lemma bind_returned {A B : Type} (c : M A) (k : A -> M B) (s s2 : State) (b : B) :
  bind c k s = (s2, Returned b) ->
  exists s1 a, c s = (s1, Returned a) /\ k a s1 = (s2, Returned b).
Proof.
  unfold bind. destruct (c s) as [s1 [e|a]]; [discriminate|].
  intros H. now exists s1, a.
Qed.

(* ================================================================== *)
(** * How the processing runs *)

Lemma error_logging_returns_kept (s s' : State) :
  transport s' = transport s -> error_logging_returns s -> error_logging_returns s'.
Proof. intros E H l e He. rewrite E. now apply H. Qed.

(** A result of the [try] block is a success that carries the payload's
    id. *)
Lemma processWebhook_steps_returned payload s s1 r :
  processWebhook_steps payload s = (s1, Returned r) ->
  success r = true /\
  message r = "Webhook processed successfully" /\
  transactionId r = Some (id payload).
Proof.
  unfold processWebhook_steps. intros H.
  repeat (apply bind_returned in H; destruct H as (? & ? & _ & H)).
  unfold ret in H. injection H as _ <-. now repeat split.
Qed.

(** A failure of the [try] block becomes the failure result, provided the
    [logger.error] of the [catch] block returns. *)
Lemma processWebhook_failed_returns payload e s :
  error_logging_returns s ->
  processWebhook_failed payload e s =
  (with_log (log s ++ [{| level := Error; text := "Webhook processing failed";
                          meta := VObject [("error", VError e);
                                           ("transactionId", VString (id payload))] |}]) s,
   Returned {| success := false;
               message := "Webhook processing failed";
               transactionId := Some (id payload);
               processedAt := clock s |}).
Proof.
  intros H. unfold processWebhook_failed, bind, logger_error.
  rewrite logger_call_returned by (apply H; reflexivity).
  reflexivity.
Qed.

Lemma processWebhook_resolves payload s :
  error_logging_returns s ->
  exists s' r,
    processWebhook payload s = (s', Returned r) /\
    transactionId r = Some (id payload) /\
    ((success r = true /\ message r = "Webhook processed successfully" /\
      processWebhook_steps payload s = (s', Returned r))
     \/
     (success r = false /\ message r = "Webhook processing failed" /\
      exists s1 e, processWebhook_steps payload s = (s1, Threw e))).
Proof.
  intros H. unfold processWebhook, try_catch.
  destruct (processWebhook_steps payload s) as [s1 [e|r]] eqn:E.
  - assert (H1 : error_logging_returns s1).
    { apply (error_logging_returns_kept s); [|exact H].
      change s1 with (fst (s1, @Threw WebhookProcessingResult e)). rewrite <- E.
      unfold processWebhook_steps, updateTransactionStatus, sendCustomerNotification,
        updateAccountingSystem, simulateProcessing, logger_info.
      repeat first
        [ apply preserves_bind | apply preserves_ret | apply preserves_Date_now
        | apply preserves_logger_call; exact transport_apart_from_log
        | apply preserves_sleep; exact transport_apart_from_clock | intro ]. }
    rewrite (processWebhook_failed_returns payload e s1 H1).
    eexists _, _. split; [reflexivity|]. split; [reflexivity|].
    right. repeat split. now exists s1, e.
  - destruct (processWebhook_steps_returned _ _ _ _ E) as (Hs & Hm & Ht).
    exists s1, r. repeat split; auto.
Qed.

(** The callback of [setImmediate] returns, whatever the processing did. *)
Lemma deferred_processing_returns payload s :
  error_logging_returns s ->
  exists s', deferred_processing payload s = (s', Returned tt).
Proof.
  intros H. destruct (processWebhook_resolves payload s H) as (s1 & r & E & _).
  assert (H1 : error_logging_returns s1).
  { apply (error_logging_returns_kept s); [|exact H].
    change s1 with (fst (s1, Returned r)). rewrite <- E.
    apply preserves_processWebhook;
      [exact transport_apart_from_log | exact transport_apart_from_clock]. }
  unfold deferred_processing, try_catch, bind. rewrite E.
  destruct (success r); cbn [negb]; cbv beta iota.
  - now exists s1.
  - unfold logger_error. rewrite logger_call_returned by (apply H1; reflexivity).
    eexists. reflexivity.
Qed.

(** Should [processWebhook] reject, the callback catches the rejection and
    logs it. *)
Lemma deferred_processing_catches payload s s1 e :
  processWebhook payload s = (s1, Threw e) ->
  transport s1 (log s1) (error_async payload e) = None ->
  deferred_processing payload s =
  (with_log (log s1 ++ [error_async payload e]) s1, Returned tt).
Proof.
  intros E T. unfold deferred_processing, try_catch, bind. rewrite E.
  unfold logger_error. rewrite logger_call_returned by exact T. reflexivity.
Qed.

(* ================================================================== *)
(** * How the controller runs *)

Lemma wp_conseq {A : Type} (c : M A) (P Q : State -> Outcome A -> Prop) (s : State) :
  wp c P s -> (forall s1 o, P s1 o -> Q s1 o) -> wp c Q s.
Proof. unfold wp. intros H HPQ. now apply HPQ. Qed.

Lemma wp_keeps_immediates {A : Type} (c : M A) (Q : State -> Outcome A -> Prop) (s : State) :
  preserves immediates c ->
  (forall s1 o, immediates s1 = immediates s -> Q s1 o) ->
  wp c Q s.
Proof. intros Hi H. apply H, Hi. Qed.

Ltac keeps_immediates :=
  unfold logger_warn, logger_error;
  repeat first
    [ apply preserves_bind | apply preserves_ret
    | apply preserves_logger_call; exact immediates_apart_from_log
    | apply preserves_res_status_json; intros ? ?; reflexivity | intro ].

(** The processing is queued only once the 200 response is sent, and it is
    the only callback queued. *)
Lemma handleWebhook_queue req config s :
  immediates s = [] ->
  wp (handleWebhook req config)
     (fun s1 _ =>
        immediates s1 = [] \/
        (immediates s1 = [ProcessLater (body req)] /\
         response s1 = Some (received_body (body req)))) s.
Proof.
  intros Hq. unfold handleWebhook. apply wp_try_catch.
  apply (wp_conseq _
    (fun s1 o =>
       immediates s1 = [] \/
       (o = Returned tt /\ immediates s1 = [ProcessLater (body req)] /\
        response s1 = Some (received_body (body req))))).
  - destruct (isEmpty (validationResult req)); cbn [negb].
    + apply wp_bind. apply wp_framed.
      * apply preserves_verifyWebhook. exact response_apart_from_log.
      * apply preserves_verifyWebhook. exact immediates_apart_from_log.
      * intros s1 [e|v] Hr Hi; [left; congruence|].
        destruct (isValid v); cbn [negb].
        -- apply wp_bind. apply wp_res_status_json.
           ++ intros _. left. congruence.
           ++ intros _. apply wp_setImmediate. right.
              cbn. rewrite Hi, Hq. repeat split.
        -- apply wp_keeps_immediates; [keeps_immediates|].
           intros s2 o E. left. congruence.
    + apply wp_keeps_immediates; [keeps_immediates|].
      intros s1 o E. left. congruence.
  - intros s1 [e|[]] [H | (E & Hi & Hr)].
    + apply wp_keeps_immediates; [keeps_immediates|].
      intros s2 o E. left. congruence.
    + discriminate.
    + now left.
    + now right.
Qed.

(** The response the caller received stays as [handleWebhook] left it. *)
Lemma serve_response req config s :
  response (state_after (serve req config) s) =
  response (state_after (handleWebhook req config) s).
Proof.
  unfold state_after, serve, bind.
  destruct (handleWebhook req config s) as [s1 [e|[]]]; simpl; [reflexivity|].
  apply run_immediates_keeps_response.
Qed.

(* ================================================================== *)
(** * The canonical serialization *)






(* ================================================================== *)
(** * The timestamp check *)

Example tolerance_rendering :
  Js.thousandth_toString 300000 = "300" /\
  Js.thousandth_toString 300500 = "300.5" /\
  Js.thousandth_toString 1250 = "1.25" /\
  Js.thousandth_toString 1 = "0.001" /\
  Js.thousandth_toString (-1500) = "-1.5".
Proof. repeat split. Qed.


Lemma verifyTimestamp_delta (s : State) (t1 t2 tolerance : Z) :
  delta s t1 = delta s t2 ->
  verifyTimestamp t1 tolerance s = verifyTimestamp t2 tolerance s.
Proof. intros E. now rewrite !verifyTimestamp_run, E. Qed.


(** C7. The timestamp check depends on the timestamp through its distance
    to the clock only: a timestamp [d] seconds after the clock gets the
    verdict of the one [d] seconds before it, and a timestamp in the future
    within the tolerance is accepted.  So two requests, each with the
    signature of its payload, whose timestamps are at one distance from the
    clock get the same validity and the same error from [verifyWebhook]. *)
Theorem verifyTimestamp_symmetric (s : State) (tolerance d : Z) :
  let now := clock s / 1000 in
  verifyTimestamp (now + d) tolerance s = verifyTimestamp (now - d) tolerance s /\
  (forall t1 t2 : Z,
     Z.abs (now - t1) = Z.abs (now - t2) ->
     verifyTimestamp t1 tolerance s = verifyTimestamp t2 tolerance s) /\
  (0 <= d -> 1000 * d <= tolerance ->
   verifyTimestamp (now + d) tolerance s =
   (s, Returned {| ts_isValid := true; ts_error := None |})) /\
  (forall (p1 p2 : YaYaWebhookPayload) (sig1 sig2 : option string)
          (clientIp : string) (config : WebhookConfig),
     logger_returns s ->
     signature_matches p1 sig1 config ->
     signature_matches p2 sig2 config ->
     Z.abs (now - timestamp p1) = Z.abs (now - timestamp p2) ->
     exists r1 r2 : WebhookVerificationResult,
       result_of (verifyWebhook p1 sig1 clientIp config) s = Some r1 /\
       result_of (verifyWebhook p2 sig2 clientIp config) s = Some r2 /\
       isValid r1 = isValid r2 /\ error r1 = error r2).
Proof.
  intros now. split; [|split; [|split]].
  - apply verifyTimestamp_delta. unfold delta. fold now. lia.
  - intros t1 t2 E. apply verifyTimestamp_delta. exact E.
  - intros Hd Htol. rewrite verifyTimestamp_run. unfold delta. fold now.
    replace (Z.abs (now - (now + d))) with d by lia.
    destruct (Z.ltb_spec tolerance (1000 * d)); [lia | reflexivity].
  - intros p1 p2 sig1 sig2 clientIp config Hlog H1 H2 E.
    unfold result_of. rewrite !verifyWebhook_run by exact Hlog. cbn [snd].
    eexists _, _. split; [reflexivity|]. split; [reflexivity|].
    unfold verdict, signature_matches, signature_check, Js.strict_eq, timestamp_check.
    rewrite H1, H2. fold now in E. unfold delta. fold now. rewrite E.
    destruct (ip_check s clientIp config); cbn [negb]; [|split; reflexivity].
    destruct (1000 * Z.abs (now - timestamp p2) <=? timestampTolerance config);
      cbn [negb]; split; reflexivity.
Qed.

(* ================================================================== *)
(** * The three checks and their order *)

Lemma ip_trusted_iff s clientIp config :
  ip_trusted s clientIp config <-> ip_check s clientIp config = true.
Proof.
  unfold ip_trusted, result_of. rewrite isTrustedIp_run. simpl.
  split; [now intros [= ->] | now intros ->].
Qed.

Lemma signature_matches_iff payload signature config :
  signature_matches payload signature config <->
  signature_check payload signature config = true.
Proof.
  unfold signature_matches, signature_check, Js.strict_eq.
  now rewrite negb_true_iff.
Qed.

Lemma signature_matches_eq payload signature config :
  signature_matches payload signature config <->
  signature = Some (generateSignature payload (secret config)).
Proof. apply strict_neq_false. Qed.

Lemma timestamp_fresh_iff s payload config :
  timestamp_fresh s payload config <-> timestamp_check s payload config = true.
Proof.
  unfold timestamp_fresh, timestamp_check, result_of.
  rewrite verifyTimestamp_run. cbn [snd].
  destruct (Z.ltb_spec (timestampTolerance config) (1000 * delta s (timestamp payload)));
    destruct (Z.leb_spec (1000 * delta s (timestamp payload)) (timestampTolerance config));
    simpl; split; congruence || lia.
Qed.

Lemma not_true_false (b : bool) : b <> true -> b = false.
Proof. now destruct b. Qed.

(** The scenario of the specification: the signature is the HMAC of the
    canonical string under the secret, and the request is accepted. *)
Example scenario_signature_value :
  generateSignature (scenario_payload scenario_time) "s3cr3t" = scenario_signature.
Proof. vm_compute. reflexivity. Qed.

Example scenario_accepted :
  result_of (verifyWebhook (scenario_payload scenario_time) (Some scenario_signature)
               "196.188.120.3" (scenario_config ["196.188.120.3"]))
            (scenario_state "production" never)
  = Some (accepted (scenario_payload scenario_time)).
Proof. vm_compute. reflexivity. Qed.

(** C3. [verifyWebhook] makes the IP check, then the signature check, then
    the timestamp check: the first check that fails gives the one reason
    returned and nothing of the later checks is done (the log receives the
    one entry of that check), so an untrusted address is reported whatever
    the signature; and the verdict is valid exactly when the three checks
    pass.  The logger is assumed to return. *)
Theorem verifyWebhook_check_order s payload signature clientIp config :
  logger_returns s ->
  exists (r : WebhookVerificationResult) (e : LogEntry),
    verifyWebhook payload signature clientIp config s =
      (with_log (log s ++ [e]) s, Returned r) /\
    (~ ip_trusted s clientIp config ->
       r = rejected UntrustedIp /\ e = warn_untrusted clientIp) /\
    (ip_trusted s clientIp config -> ~ signature_matches payload signature config ->
       r = rejected InvalidSignature /\
       e = warn_signature signature (generateSignature payload (secret config))) /\
    (ip_trusted s clientIp config -> signature_matches payload signature config ->
     ~ timestamp_fresh s payload config ->
       r = rejected (TimestampOutOfRange (delta s (timestamp payload))
                                         (timestampTolerance config)) /\
       e = warn_timestamp payload config) /\
    (isValid r = true <->
       ip_trusted s clientIp config /\ signature_matches payload signature config /\
       timestamp_fresh s payload config) /\
    (isValid r = true -> r = accepted payload /\ e = info_verified payload).
Proof.
  intros Hlog.
  exists (verdict s payload signature clientIp config),
         (verdict_entry s payload signature clientIp config).
  split; [now apply verifyWebhook_run|].
  rewrite ip_trusted_iff, signature_matches_iff, timestamp_fresh_iff.
  unfold verdict, verdict_entry.
  destruct (ip_check s clientIp config), (signature_check payload signature config),
    (timestamp_check s payload config); cbn [negb isValid rejected accepted];
    intuition (try congruence).
Qed.

Lemma verifyWebhook_check_order_witness :
  logger_returns (scenario_state "production" never) /\
  result_of (verifyWebhook (scenario_payload scenario_time) (Some "00") "203.0.113.9"
               (scenario_config ["196.188.120.3"]))
            (scenario_state "production" never)
  = Some (rejected UntrustedIp).
Proof.
  assert (H : logger_returns (scenario_state "production" never))
    by (intros l e; reflexivity).
  split; [exact H|].
  destruct (verifyWebhook_check_order (scenario_state "production" never)
              (scenario_payload scenario_time) (Some "00") "203.0.113.9"
              (scenario_config ["196.188.120.3"]) H) as (r & e & E & Hip & _).
  unfold result_of. rewrite E. simpl. f_equal. apply Hip.
  unfold ip_trusted. vm_compute. discriminate.
Defined.

(* ================================================================== *)
(** * The trusted addresses *)

Lemma includes_nil (x : string) : Js.includes [] x = false.
Proof. reflexivity. Qed.

Lemma strict_eq_true (a : option string) (b : string) :
  Js.strict_eq a b = true <-> a = Some b.
Proof. unfold Js.strict_eq. rewrite negb_true_iff. apply strict_neq_false. Qed.

(** With no trusted address, the IP check passes for the loopback address
    of a development process, and for no other request. *)
Lemma ip_check_no_trusted s clientIp config :
  trustedIps config = [] ->
  ip_check s clientIp config = true <->
  NODE_ENV s = Some "development" /\ clientIp = "::1".
Proof.
  intros E. unfold ip_check. rewrite E, includes_nil, orb_false_r, andb_true_iff.
  now rewrite strict_eq_true, String.eqb_eq.
Qed.

(** C5, as the specification states it, fails: with no trusted address, a
    development process accepts the request of the scenario when it comes
    from the loopback address [::1]. *)
Lemma empty_trustedIps_accepts_loopback_in_development :
  trustedIps (scenario_config []) = [] /\
  result_of (verifyWebhook (scenario_payload scenario_time) (Some scenario_signature)
               "::1" (scenario_config []))
            (scenario_state "development" never)
  = Some (accepted (scenario_payload scenario_time)) /\
  accepted (scenario_payload scenario_time) <> rejected UntrustedIp.
Proof.
  split; [reflexivity|]. split; [vm_compute; reflexivity | discriminate].
Qed.

(** C5, amended. With no trusted address, [verifyWebhook] rejects with the
    untrusted-address reason every request, whatever its signature and
    timestamp, except a request from [::1] to a process whose [NODE_ENV] is
    [development]; that request passes the IP check. *)
Theorem empty_trustedIps_rejects s payload signature clientIp config :
  trustedIps config = [] ->
  logger_returns s ->
  (~ (NODE_ENV s = Some "development" /\ clientIp = "::1") ->
   result_of (verifyWebhook payload signature clientIp config) s =
   Some (rejected UntrustedIp)) /\
  (NODE_ENV s = Some "development" /\ clientIp = "::1" ->
   ip_trusted s clientIp config /\
   result_of (verifyWebhook payload signature clientIp config) s <>
   Some (rejected UntrustedIp)).
Proof.
  intros Hempty Hlog.
  pose proof (ip_check_no_trusted s clientIp config Hempty) as Hip.
  unfold result_of. rewrite verifyWebhook_run by exact Hlog. cbn [snd].
  unfold verdict. split.
  - intros Hnot. destruct (ip_check s clientIp config); [tauto | reflexivity].
  - intros Hdev. apply Hip in Hdev. split; [now apply ip_trusted_iff|].
    rewrite Hdev. cbn [negb].
    destruct (signature_check payload signature config),
      (timestamp_check s payload config); cbn [negb]; discriminate.
Qed.

Lemma empty_trustedIps_rejects_witness :
  trustedIps (scenario_config []) = [] /\
  logger_returns (scenario_state "production" never) /\
  result_of (verifyWebhook (scenario_payload scenario_time) (Some scenario_signature)
               "::1" (scenario_config []))
            (scenario_state "production" never)
  = Some (rejected UntrustedIp).
Proof.
  assert (H : logger_returns (scenario_state "production" never))
    by (intros l e; reflexivity).
  split; [reflexivity|]. split; [exact H|].
  apply (empty_trustedIps_rejects (scenario_state "production" never)
           (scenario_payload scenario_time) (Some scenario_signature) "::1"
           (scenario_config []) eq_refl H).
  simpl. intros [E _]. discriminate.
Defined.

(* ================================================================== *)
(** * The verdict is total *)

Lemma verdict_shape s payload signature clientIp config :
  verdict s payload signature clientIp config = accepted payload \/
  exists reason, verdict s payload signature clientIp config = rejected reason.
Proof.
  unfold verdict.
  destruct (ip_check s clientIp config), (signature_check payload signature config),
    (timestamp_check s payload config); cbn [negb]; eauto.
Qed.

(** C6. [verifyWebhook] does not throw and returns a verdict whose [error]
    is present, and is one of the reasons, exactly when [isValid] is false,
    and whose [timestamp] is present, and is the payload's, exactly when
    [isValid] is true.  A logger call that throws inside the [try] block is
    caught; the [logger.error] of the [catch] block is assumed to return. *)
Theorem verifyWebhook_total_verdict s payload signature clientIp config :
  error_logging_returns s ->
  exists (s' : State) (r : WebhookVerificationResult),
    verifyWebhook payload signature clientIp config s = (s', Returned r) /\
    (isValid r = false <-> exists reason, error r = Some (reason_message reason)) /\
    (isValid r = true <-> error r = None) /\
    (isValid r = true <-> result_timestamp r = Some (timestamp payload)) /\
    (isValid r = false <-> result_timestamp r = None).
Proof.
  intros Herr.
  assert (Hshape : forall r, r = accepted payload \/ (exists reason, r = rejected reason) ->
    (isValid r = false <-> exists reason, error r = Some (reason_message reason)) /\
    (isValid r = true <-> error r = None) /\
    (isValid r = true <-> result_timestamp r = Some (timestamp payload)) /\
    (isValid r = false <-> result_timestamp r = None)).
  { intros r [-> | [reason ->]]; cbn [isValid error result_timestamp accepted rejected].
    - repeat split; try congruence; try discriminate. now intros [? ?].
    - repeat split; try congruence; try discriminate. intros _. now exists reason. }
  destruct (transport s (log s) (verdict_entry s payload signature clientIp config))
    as [e|] eqn:T.
  - eexists _, _. split.
    + apply (verifyWebhook_caught _ _ _ _ _ e T). apply Herr. reflexivity.
    + apply Hshape. right. now exists InternalFault.
  - eexists _, _. split.
    + apply verifyWebhook_returned. exact T.
    + apply Hshape, verdict_shape.
Qed.

Lemma verifyWebhook_total_verdict_witness :
  error_logging_returns (scenario_state "production" at_warn) /\
  result_of (verifyWebhook (scenario_payload scenario_time) None "203.0.113.9"
               (scenario_config ["196.188.120.3"]))
            (scenario_state "production" at_warn)
  = Some (rejected InternalFault).
Proof.
  assert (H : error_logging_returns (scenario_state "production" at_warn)).
  { intros l e He. unfold scenario_state, process_state, at_warn. simpl. now rewrite He. }
  split; [exact H|].
  destruct (verifyWebhook_total_verdict (scenario_state "production" at_warn)
              (scenario_payload scenario_time) None "203.0.113.9"
              (scenario_config ["196.188.120.3"]) H) as (s' & r & E & _).
  unfold result_of. rewrite E. simpl.
  vm_compute in E. injection E as _ <-. reflexivity.
Defined.

(* ================================================================== *)
(** * The signature check

    The comparison is the [!==] of the source.  The embedding says which
    signatures it tells apart from the expected one; how long the
    comparison takes is not a property of this function of its inputs. *)

(** The scenario with one hexadecimal digit of the signature changed. *)
Example scenario_signature_flipped :
  result_of (verifyWebhook (scenario_payload scenario_time)
               (Some "8ac6b89f81ac2fe50969c6884502749d2d27b86c393fa57ffdb931f408423e0e")
               "196.188.120.3" (scenario_config ["196.188.120.3"]))
            (scenario_state "production" never)
  = Some (rejected InvalidSignature).
Proof. vm_compute. reflexivity. Qed.

Lemma upper_ascii_hex (c : ascii) :
  is_lower_hex c = true ->
  if is_decimal_digit c then Js.upper_ascii c = c else Js.upper_ascii c <> c.
Proof.
  destruct c as [[] [] [] [] [] [] [] []]; vm_compute; congruence.
Qed.

Lemma toUpperCase_changes (s : string) :
  every is_lower_hex s = true -> every is_decimal_digit s = false ->
  Js.toUpperCase s <> s.
Proof.
  induction s as [|c s IH]; simpl; [discriminate|].
  rewrite andb_true_iff. intros [Hc Hs] Hd.
  pose proof (upper_ascii_hex c Hc) as Hu.
  destruct (is_decimal_digit c); simpl in Hd.
  - rewrite Hu. intros [= E]. now apply IH.
  - intros [= E _]. contradiction.
Qed.

(** C10. The signature is compared with the expected one, the 64 lowercase
    hexadecimal digits of the HMAC, by string equality: from a trusted
    address, [verifyWebhook] returns the invalid-signature reason, and does
    not throw, exactly when the signature supplied is not that string; this
    is so for an absent signature, for the empty one, and for the digest
    in uppercase as soon as it has a letter.  The logger is assumed to
    return. *)
Theorem wrong_signature_rejected s payload clientIp config :
  logger_returns s ->
  ip_trusted s clientIp config ->
  let expected := generateSignature payload (secret config) in
  String.length expected = 64%nat /\
  every is_lower_hex expected = true /\
  (forall signature : option string,
     result_of (verifyWebhook payload signature clientIp config) s =
       Some {| isValid := false; error := Some "Invalid signature";
               result_timestamp := None |}
     <-> signature <> Some expected) /\
  None <> Some expected /\
  Some "" <> Some expected /\
  (every is_decimal_digit expected = false -> Some (Js.toUpperCase expected) <> Some expected).
Proof.
  intros Hlog Hip expected.
  destruct (generateSignature_shape payload (secret config)) as [Hlen Hhex].
  fold expected in Hlen, Hhex.
  split; [exact Hlen|]. split; [exact Hhex|]. split; [|split; [|split]].
  - intros signature. unfold result_of.
    rewrite verifyWebhook_run by exact Hlog. cbn [snd]. unfold verdict.
    apply ip_trusted_iff in Hip. rewrite Hip. cbn [negb].
    pose proof (signature_matches_eq payload signature config) as Heq.
    rewrite signature_matches_iff in Heq. fold expected in Heq.
    destruct (signature_check payload signature config); cbn [negb].
    + split; [|intros Hne; now destruct Hne; apply Heq].
      destruct (timestamp_check s payload config); cbn [negb]; [discriminate|].
      intros [= E].
    + split; [|reflexivity]. intros _ E. apply Heq in E. discriminate.
  - discriminate.
  - clearbody expected. intros [= <-]. discriminate Hlen.
  - clearbody expected. intros Hd [= E]. now apply (toUpperCase_changes expected).
Qed.

Lemma wrong_signature_rejected_witness :
  logger_returns (scenario_state "production" never) /\
  ip_trusted (scenario_state "production" never) "196.188.120.3"
    (scenario_config ["196.188.120.3"]) /\
  result_of (verifyWebhook (scenario_payload scenario_time)
               (Some (Js.toUpperCase scenario_signature)) "196.188.120.3"
               (scenario_config ["196.188.120.3"]))
            (scenario_state "production" never)
  = Some (rejected InvalidSignature).
Proof.
  assert (H : logger_returns (scenario_state "production" never))
    by (intros l e; reflexivity).
  assert (Hip : ip_trusted (scenario_state "production" never) "196.188.120.3"
                  (scenario_config ["196.188.120.3"])) by reflexivity.
  split; [exact H|]. split; [exact Hip|].
  destruct (wrong_signature_rejected (scenario_state "production" never)
              (scenario_payload scenario_time) "196.188.120.3"
              (scenario_config ["196.188.120.3"]) H Hip) as (_ & _ & Hrej & _).
  apply Hrej. vm_compute. discriminate.
Defined.

(* ================================================================== *)
(** * One field changed *)




(** Two fields changed together may leave the serialization as it was: a
    digit moved from the amount to the id. *)
Example two_fields_changed_same_serialization :
  let p := scenario_payload scenario_time in
  let q := {| id := id p ++ "1"; amount := 0; currency := currency p;
              created_at_time := created_at_time p; timestamp := timestamp p;
              cause := cause p; full_name := full_name p;
              account_name := account_name p; invoice_url := invoice_url p |} in
  let p' := {| id := id p; amount := 10; currency := currency p;
               created_at_time := created_at_time p; timestamp := timestamp p;
               cause := cause p; full_name := full_name p;
               account_name := account_name p; invoice_url := invoice_url p |} in
  p' <> q /\ createSignedPayload p' = createSignedPayload q.
Proof. split; [discriminate | reflexivity]. Qed.



(* ================================================================== *)
(** * Failures of the processing *)

(** A request of the scenario served by a process whose logger throws at
    the first processing step: the caller receives the 200 response, the
    processing fails, and the failure is only logged. *)
Example scenario_processing_failure :
  let s := state_after
             (serve {| validationResult := [];
                       body := scenario_payload scenario_time;
                       header_yaya_signature := Some scenario_signature;
                       ip := Some "196.188.120.3";
                       connection_remoteAddress := None |}
                    (scenario_config ["196.188.120.3"]))
             (scenario_state "production" (at_info_text "Transaction status updated")) in
  response s = Some (received_body (scenario_payload scenario_time)) /\
  map text (log s) =
    ["Webhook verification successful"; "Processing webhook";
     "Webhook processing failed"; "Webhook processing failed"] /\
  immediates s = [].
Proof. vm_compute. repeat split. Qed.

(** C9. [processWebhook] does not reject: it resolves to a result that
    carries the payload's id, a success when its steps all return, and the
    failure with the message "Webhook processing failed" when one of them
    throws; the callback that runs it after the response returns, too, and
    it would catch a rejection of [processWebhook].  The processing is
    queued only once the 200 response is sent, and what runs after
    [handleWebhook], however it ends, leaves the response the caller
    received as it was.  The [logger.error] calls are assumed to return,
    for the first two parts. *)
Theorem processing_failure_contained (payload : YaYaWebhookPayload) (s : State) :
  error_logging_returns s ->
  (exists (s' : State) (r : WebhookProcessingResult),
     processWebhook payload s = (s', Returned r) /\
     transactionId r = Some (id payload) /\
     ((success r = true /\ message r = "Webhook processed successfully" /\
       processWebhook_steps payload s = (s', Returned r))
      \/
      (success r = false /\ message r = "Webhook processing failed" /\
       exists s1 e, processWebhook_steps payload s = (s1, Threw e)))) /\
  (exists s' : State, deferred_processing payload s = (s', Returned tt)) /\
  (forall (s0 s1 : State) (e : Exn),
     processWebhook payload s0 = (s1, Threw e) ->
     transport s1 (log s1) (error_async payload e) = None ->
     deferred_processing payload s0 =
     (with_log (log s1 ++ [error_async payload e]) s1, Returned tt)) /\
  (forall (req : Request) (config : WebhookConfig) (s0 : State),
     immediates s0 = [] ->
     let s1 := state_after (handleWebhook req config) s0 in
     (immediates s1 = [] \/
      (immediates s1 = [ProcessLater (body req)] /\
       response s1 = Some (received_body (body req)))) /\
     response (state_after (serve req config) s0) = response s1) /\
  (forall s0 : State,
     response (state_after (deferred_processing payload) s0) = response s0).
Proof.
  intros Herr. split; [|split; [|split; [|split]]].
  - now apply processWebhook_resolves.
  - now apply deferred_processing_returns.
  - intros s0 s1 e. apply deferred_processing_catches.
  - intros req config s0 Hq s1. split.
    + exact (handleWebhook_queue req config s0 Hq).
    + apply serve_response.
  - intros s0. apply preserves_deferred_processing.
    + exact response_apart_from_log.
    + exact response_apart_from_clock.
Qed.

Lemma processing_failure_contained_witness :
  let s := scenario_state "production" (at_info_text "Transaction status updated") in
  error_logging_returns s /\
  exists (s' : State) (r : WebhookProcessingResult),
    processWebhook (scenario_payload scenario_time) s = (s', Returned r) /\
    success r = false /\
    message r = "Webhook processing failed" /\
    transactionId r = Some "1dd2854e-3a79-4548-ae36-97e4a18ebf81".
Proof.
  intros s.
  assert (H : error_logging_returns s).
  { intros l e He. unfold s, scenario_state, process_state, at_info_text. simpl.
    now rewrite He. }
  split; [exact H|].
  destruct (processing_failure_contained (scenario_payload scenario_time) s H)
    as ((s' & r & E & Hid & Hcase) & _).
  exists s', r. split; [exact E|].
  destruct Hcase as [(_ & _ & Hsteps) | (Hs & Hm & _)].
  - vm_compute in Hsteps. discriminate Hsteps.
  - repeat split; assumption.
Defined.

(* ================================================================== *)
(** * More on the timestamp check *)




(* ================================================================== *)
(** * More on the verdict *)

Lemma isValid_verdict s payload signature clientIp config :
  isValid (verdict s payload signature clientIp config) =
  ip_check s clientIp config && signature_check payload signature config &&
  timestamp_check s payload config.
Proof.
  unfold verdict.
  now destruct (ip_check s clientIp config), (signature_check payload signature config),
    (timestamp_check s payload config).
Qed.

Lemma verdict_accepted s payload signature clientIp config :
  isValid (verdict s payload signature clientIp config) = true ->
  verdict s payload signature clientIp config = accepted payload.
Proof.
  unfold verdict.
  now destruct (ip_check s clientIp config), (signature_check payload signature config),
    (timestamp_check s payload config).
Qed.


Lemma logger_returns_with_clock (c : Z) (s : State) :
  logger_returns s -> logger_returns (with_clock c s).
Proof. intros H l e. apply H. Qed.

Lemma logger_returns_with_log (l : list LogEntry) (s : State) :
  logger_returns s -> logger_returns (with_log l s).
Proof. intros H l' e. apply H. Qed.



(** X3. [verifyWebhook] keeps no record of the requests it has accepted: a
    request that was accepted is accepted again when it is replayed, at
    any later reading of the clock that is still within the tolerance of
    its timestamp.  The logger is assumed to return. *)
Theorem replay_within_tolerance_accepted s payload signature clientIp config (later : Z) :
  logger_returns s ->
  result_of (verifyWebhook payload signature clientIp config) s = Some (accepted payload) ->
  1000 * Z.abs (later / 1000 - timestamp payload) <= timestampTolerance config ->
  result_of (verifyWebhook payload signature clientIp config)
            (with_clock later (state_after (verifyWebhook payload signature clientIp config) s))
  = Some (accepted payload).
Proof.
  intros Hlog Hfirst Hlater.
  unfold result_of in Hfirst. rewrite verifyWebhook_run in Hfirst by exact Hlog.
  cbn [snd] in Hfirst.
  assert (Hv : isValid (verdict s payload signature clientIp config) = true)
    by (injection Hfirst as ->; reflexivity).
  rewrite isValid_verdict, !andb_true_iff in Hv. destruct Hv as [[Hip Hsig] _].
  unfold state_after. rewrite verifyWebhook_run by exact Hlog. cbn [fst].
  unfold result_of. rewrite verifyWebhook_run
    by (apply logger_returns_with_clock, logger_returns_with_log, Hlog).
  cbn [snd]. f_equal. apply verdict_accepted.
  rewrite isValid_verdict, !andb_true_iff. repeat split.
  - exact Hip.
  - exact Hsig.
  - unfold timestamp_check, delta. apply Z.leb_le. exact Hlater.
Qed.

Lemma replay_within_tolerance_accepted_witness :
  logger_returns (scenario_state "production" never) /\
  result_of (verifyWebhook (scenario_payload scenario_time) (Some scenario_signature)
               "196.188.120.3" (scenario_config ["196.188.120.3"]))
            (scenario_state "production" never)
  = Some (accepted (scenario_payload scenario_time)) /\
  result_of (verifyWebhook (scenario_payload scenario_time) (Some scenario_signature)
               "196.188.120.3" (scenario_config ["196.188.120.3"]))
            (with_clock ((scenario_time + 299) * 1000)
               (state_after
                  (verifyWebhook (scenario_payload scenario_time) (Some scenario_signature)
                     "196.188.120.3" (scenario_config ["196.188.120.3"]))
                  (scenario_state "production" never)))
  = Some (accepted (scenario_payload scenario_time)).
Proof.
  assert (H : logger_returns (scenario_state "production" never))
    by (intros l e; reflexivity).
  assert (H1 : result_of (verifyWebhook (scenario_payload scenario_time)
                            (Some scenario_signature) "196.188.120.3"
                            (scenario_config ["196.188.120.3"]))
                         (scenario_state "production" never)
               = Some (accepted (scenario_payload scenario_time)))
    by (vm_compute; reflexivity).
  split; [exact H|]. split; [exact H1|].
  refine (replay_within_tolerance_accepted (scenario_state "production" never)
            (scenario_payload scenario_time) (Some scenario_signature) "196.188.120.3"
            (scenario_config ["196.188.120.3"]) ((scenario_time + 299) * 1000) H H1 _).
  vm_compute. discriminate.
Defined.

(** X4. On a signature mismatch from a trusted address, the entry written
    to the log holds, under [expected], a signature that is valid for the
    payload: sent as the signature of the same request, it passes the
    signature check, and the request is accepted when its timestamp is
    fresh.  The verdict of the rejection holds the reason only.  The
    logger is assumed to return. *)
Theorem logged_expected_signature_is_valid s payload signature clientIp config :
  logger_returns s ->
  ip_trusted s clientIp config ->
  ~ signature_matches payload signature config ->
  exists (expected : string) (e : LogEntry) (s' : State),
    verifyWebhook payload signature clientIp config s =
      (s', Returned {| isValid := false; error := Some "Invalid signature";
                       result_timestamp := None |}) /\
    log s' = (log s ++ [e])%list /\
    meta e = VObject [("received", VOptString signature); ("expected", VString expected)] /\
    signature_matches payload (Some expected) config /\
    (timestamp_fresh s' payload config ->
     result_of (verifyWebhook payload (Some expected) clientIp config) s' =
     Some (accepted payload)).
Proof.
  intros Hlog Hip Hsig.
  apply ip_trusted_iff in Hip.
  rewrite signature_matches_iff in Hsig. apply not_true_false in Hsig.
  exists (generateSignature payload (secret config)),
         (warn_signature signature (generateSignature payload (secret config))),
         (with_log (log s ++ [warn_signature signature
                                (generateSignature payload (secret config))]) s).
  split; [|split; [reflexivity|split; [reflexivity|split]]].
  - now apply verifyWebhook_bad_signature.
  - now apply signature_matches_eq.
  - intros Hfresh. apply timestamp_fresh_iff in Hfresh.
    unfold result_of. rewrite verifyWebhook_run by (apply logger_returns_with_log, Hlog).
    cbn [snd]. f_equal. apply verdict_accepted.
    rewrite isValid_verdict, !andb_true_iff. repeat split.
    + exact Hip.
    + apply signature_matches_iff, signature_matches_eq. reflexivity.
    + exact Hfresh.
Qed.

Lemma logged_expected_signature_is_valid_witness :
  logger_returns (scenario_state "production" never) /\
  exists (expected : string) (e : LogEntry) (s' : State),
    verifyWebhook (scenario_payload scenario_time) (Some "guess") "196.188.120.3"
      (scenario_config ["196.188.120.3"]) (scenario_state "production" never) =
      (s', Returned {| isValid := false; error := Some "Invalid signature";
                       result_timestamp := None |}) /\
    log s' = (log (scenario_state "production" never) ++ [e])%list /\
    meta e = VObject [("received", VOptString (Some "guess"));
                      ("expected", VString expected)] /\
    signature_matches (scenario_payload scenario_time) (Some expected)
      (scenario_config ["196.188.120.3"]) /\
    (timestamp_fresh s' (scenario_payload scenario_time)
       (scenario_config ["196.188.120.3"]) ->
     result_of (verifyWebhook (scenario_payload scenario_time) (Some expected)
                  "196.188.120.3" (scenario_config ["196.188.120.3"])) s' =
     Some (accepted (scenario_payload scenario_time))).
Proof.
  assert (H : logger_returns (scenario_state "production" never))
    by (intros l e; reflexivity).
  split; [exact H|].
  apply logged_expected_signature_is_valid.
  - exact H.
  - reflexivity.
  - unfold signature_matches. vm_compute. discriminate.
Defined.

(** X5. The signature covers the concatenation of the fields, not the
    fields: two payloads with one canonical serialization and one
    timestamp get the same verdict from [verifyWebhook] for the same
    signature, so a signature that is valid for one is accepted for the
    other.  The logger is assumed to return. *)
Theorem same_serialization_same_verdict s (p q : YaYaWebhookPayload) signature clientIp config :
  logger_returns s ->
  createSignedPayload p = createSignedPayload q ->
  timestamp p = timestamp q ->
  result_of (verifyWebhook q signature clientIp config) s =
  result_of (verifyWebhook p signature clientIp config) s.
Proof.
  intros Hlog Hser Hts. unfold result_of.
  rewrite !verifyWebhook_run by exact Hlog. cbn [snd]. f_equal.
  unfold verdict, signature_check, timestamp_check, generateSignature, accepted.
  now rewrite Hser, Hts.
Qed.

Lemma same_serialization_same_verdict_witness :
  let p := scenario_payload scenario_time in
  let q := {| id := id p; amount := amount p; currency := currency p;
              created_at_time := created_at_time p; timestamp := timestamp p;
              cause := "TestingAbebe"; full_name := " Kebede";
              account_name := account_name p; invoice_url := invoice_url p |} in
  let s := scenario_state "production" never in
  logger_returns s /\ p <> q /\
  createSignedPayload p = createSignedPayload q /\
  result_of (verifyWebhook q (Some scenario_signature) "196.188.120.3"
               (scenario_config ["196.188.120.3"])) s
  = result_of (verifyWebhook p (Some scenario_signature) "196.188.120.3"
               (scenario_config ["196.188.120.3"])) s.
Proof.
  intros p q s.
  assert (H : logger_returns s) by (intros l e; reflexivity).
  assert (E : createSignedPayload p = createSignedPayload q) by reflexivity.
  split; [exact H|]. split; [discriminate|]. split; [exact E|].
  exact (same_serialization_same_verdict s p q (Some scenario_signature) "196.188.120.3"
           (scenario_config ["196.188.120.3"]) H E eq_refl).
Defined.

(** The payload of the witness above is accepted under the signature of
    the scenario's payload. *)
Example shifted_boundary_accepted :
  let p := scenario_payload scenario_time in
  let q := {| id := id p; amount := amount p; currency := currency p;
              created_at_time := created_at_time p; timestamp := timestamp p;
              cause := "TestingAbebe"; full_name := " Kebede";
              account_name := account_name p; invoice_url := invoice_url p |} in
  result_of (verifyWebhook q (Some scenario_signature) "196.188.120.3"
               (scenario_config ["196.188.120.3"]))
            (scenario_state "production" never)
  = Some (accepted q).
Proof. vm_compute. reflexivity. Qed.

(* ================================================================== *)
(** * The responses of the controller *)

Lemma handleWebhook_invalid_body req config s :
  logger_returns s ->
  response s = None ->
  validationResult req <> [] ->
  handleWebhook req config s =
  (with_response (Some (bad_request (validationResult req)))
     (with_log (log s ++ [{| level := Warn; text := "Webhook validation failed";
                             meta := VObject [("errors", VArray (validationResult req));
                                              ("body", VPayload (body req))] |}]) s),
   Returned tt).
Proof.
  intros Hlog Hres Herr. unfold handleWebhook, try_catch, bind.
  destruct (validationResult req) as [|x xs] eqn:E; [congruence|].
  cbn [isEmpty negb]. unfold logger_warn.
  rewrite logger_call_returned by apply Hlog.
  unfold res_status_json. cbn [response with_log]. rewrite Hres. reflexivity.
Qed.

Lemma handleWebhook_verified req config s :
  logger_returns s ->
  response s = None ->
  validationResult req = [] ->
  let payload := body req in
  let signature := header_yaya_signature req in
  let clientIp := client_address req in
  let v := verdict s payload signature clientIp config in
  let s1 := with_log (log s ++ [verdict_entry s payload signature clientIp config]) s in
  handleWebhook req config s =
  if isValid v then
    (with_immediates (immediates s ++ [ProcessLater payload])
       (with_response (Some (received_body payload)) s1),
     Returned tt)
  else
    (with_response (Some (unauthorized (error v)))
       (with_log (log s1 ++ [{| level := Warn; text := "Webhook verification failed";
                                meta := VObject [("error", VOptString (error v));
                                                 ("transactionId", VString (id payload));
                                                 ("clientIp", VString clientIp)] |}]) s1),
     Returned tt).
Proof.
  intros Hlog Hres Hval payload signature clientIp v s1.
  unfold handleWebhook, try_catch, bind. rewrite Hval. cbn [isEmpty negb].
  rewrite verifyWebhook_run by exact Hlog.
  fold payload signature clientIp. fold v. fold s1.
  destruct (isValid v); cbn [negb].
  - unfold res_status_json, setImmediate. subst s1. cbn [response with_log].
    rewrite Hres. reflexivity.
  - unfold logger_warn. rewrite logger_call_returned by apply Hlog.
    unfold res_status_json. subst s1. cbn [response with_log]. rewrite Hres. reflexivity.
Qed.

(** X6. With a logger that returns and no response sent yet,
    [handleWebhook] returns and answers: 400 with the validation errors
    when there are some, and then the verification is not run; otherwise
    401 with the verdict's error when [verifyWebhook] returns an invalid
    verdict; otherwise 200 with the payload's id.  The processing of the
    payload is queued in the last case and in no other. *)
Theorem handleWebhook_responses req config s :
  logger_returns s ->
  response s = None ->
  result_of (handleWebhook req config) s = Some tt /\
  (validationResult req <> [] ->
   response (state_after (handleWebhook req config) s) =
     Some (bad_request (validationResult req)) /\
   immediates (state_after (handleWebhook req config) s) = immediates s /\
   List.length (log (state_after (handleWebhook req config) s)) =
     S (List.length (log s))) /\
  (validationResult req = [] ->
   forall v : WebhookVerificationResult,
     result_of (verifyWebhook (body req) (header_yaya_signature req)
                  (client_address req) config) s = Some v ->
     (isValid v = false ->
      response (state_after (handleWebhook req config) s) = Some (unauthorized (error v)) /\
      immediates (state_after (handleWebhook req config) s) = immediates s) /\
     (isValid v = true ->
      response (state_after (handleWebhook req config) s) =
        Some (received_body (body req)) /\
      immediates (state_after (handleWebhook req config) s) =
        (immediates s ++ [ProcessLater (body req)])%list)).
Proof.
  intros Hlog Hres. unfold result_of, state_after.
  destruct (validationResult req) as [|x xs] eqn:E.
  - pose proof (handleWebhook_verified req config s Hlog Hres E) as R.
    cbv zeta in R. split; [|split].
    + rewrite R. now destruct (isValid _).
    + congruence.
    + intros _ v Hv. unfold result_of in Hv.
      rewrite verifyWebhook_run in Hv by exact Hlog. cbn [snd] in Hv.
      injection Hv as <-. rewrite R.
      split; intros Hvalid; rewrite Hvalid; split; reflexivity.
  - assert (Hne : validationResult req <> []) by congruence.
    pose proof (handleWebhook_invalid_body req config s Hlog Hres Hne) as R.
    rewrite E in R. rewrite R. split; [reflexivity|]. split; [|congruence].
    intros _. cbn. rewrite length_app. cbn. split; [reflexivity|]. split; [reflexivity|lia].
Qed.

Lemma handleWebhook_responses_witness :
  let s := scenario_state "production" never in
  let req := {| validationResult := [VString "Invalid transaction ID format"];
                body := scenario_payload scenario_time;
                header_yaya_signature := Some scenario_signature;
                ip := Some "196.188.120.3";
                connection_remoteAddress := None |} in
  logger_returns s /\ response s = None /\
  result_of (handleWebhook req (scenario_config ["196.188.120.3"])) s = Some tt.
Proof.
  intros s req.
  assert (H : logger_returns s) by (intros l e; reflexivity).
  split; [exact H|]. split; [reflexivity|].
  exact (proj1 (handleWebhook_responses req (scenario_config ["196.188.120.3"]) s H eq_refl)).
Defined.

(** X7. A request that passes the validation without the [yaya-signature]
    header, from a trusted address, is answered 401 with the message
    "Invalid signature", and nothing is queued.  The logger is assumed to
    return and no response to be sent yet. *)
Theorem missing_signature_header_unauthorized req config s :
  logger_returns s ->
  response s = None ->
  validationResult req = [] ->
  header_yaya_signature req = None ->
  ip_trusted s (client_address req) config ->
  response (state_after (handleWebhook req config) s) =
    Some (unauthorized (Some "Invalid signature")) /\
  immediates (state_after (handleWebhook req config) s) = immediates s.
Proof.
  intros Hlog Hres Hval Hsig Hip. apply ip_trusted_iff in Hip.
  pose proof (handleWebhook_verified req config s Hlog Hres Hval) as R.
  cbv zeta in R. unfold state_after. rewrite R.
  unfold verdict, signature_check. rewrite Hip, Hsig. cbn. split; reflexivity.
Qed.

Lemma missing_signature_header_unauthorized_witness :
  let s := scenario_state "production" never in
  let req := {| validationResult := [];
                body := scenario_payload scenario_time;
                header_yaya_signature := None;
                ip := Some "196.188.120.3";
                connection_remoteAddress := None |} in
  logger_returns s /\
  response (state_after (handleWebhook req (scenario_config ["196.188.120.3"])) s) =
    Some (unauthorized (Some "Invalid signature")).
Proof.
  intros s req.
  assert (H : logger_returns s) by (intros l e; reflexivity).
  split; [exact H|].
  exact (proj1 (missing_signature_header_unauthorized req
                  (scenario_config ["196.188.120.3"]) s H eq_refl eq_refl eq_refl eq_refl)).
Defined.

(** When [logger.error] returns, [verifyWebhook] returns, and the log is
    all it has changed. *)
Lemma verifyWebhook_returns s payload signature clientIp config :
  error_logging_returns s ->
  exists (l : list LogEntry) (v : WebhookVerificationResult),
    verifyWebhook payload signature clientIp config s = (with_log l s, Returned v).
Proof.
  intros Herr.
  destruct (transport s (log s) (verdict_entry s payload signature clientIp config))
    as [e|] eqn:T.
  - eexists _, _. apply (verifyWebhook_caught _ _ _ _ _ e T). apply Herr. reflexivity.
  - eexists _, _. apply verifyWebhook_returned. exact T.
Qed.

(** When [logger.error] returns and no response was sent before,
    [handleWebhook] returns, having sent one of its four responses. *)
Lemma handleWebhook_sends req config s :
  error_logging_returns s ->
  response s = None ->
  exists (s1 : State) (r : HttpResponse),
    handleWebhook req config s = (s1, Returned tt) /\
    response s1 = Some r /\
    (r = bad_request (validationResult req) \/
     (exists reason, r = unauthorized reason) \/
     r = received_body (body req) \/
     r = internal_error) /\
    (status r = 200 -> immediates s1 = (immediates s ++ [ProcessLater (body req)])%list) /\
    (status r <> 200 -> immediates s1 = immediates s).
Proof.
  intros Herr Hres.
  pose (Q := fun (s1 : State) (o : Outcome unit) =>
    o = Returned tt /\
    exists r, response s1 = Some r /\
      (r = bad_request (validationResult req) \/
       (exists reason, r = unauthorized reason) \/
       r = received_body (body req) \/
       r = internal_error) /\
      (status r = 200 -> immediates s1 = (immediates s ++ [ProcessLater (body req)])%list) /\
      (status r <> 200 -> immediates s1 = immediates s)).
  assert (W : wp (handleWebhook req config) Q s).
  { unfold handleWebhook. apply wp_try_catch.
    apply (wp_conseq _
      (fun s1 o =>
         match o with
         | Returned _ => Q s1 o
         | Threw _ => response s1 = None /\ immediates s1 = immediates s /\
                      transport s1 = transport s
         end)).
    - destruct (isEmpty (validationResult req)); cbn [negb].
      + destruct (verifyWebhook_returns s (body req) (header_yaya_signature req)
                    (client_address req) config Herr) as (l & v & E).
        apply wp_bind. unfold wp at 1. rewrite E. cbn [fst snd].
        destruct (isValid v); cbn [negb].
        * apply wp_bind. apply wp_res_status_json; [intros N; now destruct N|].
          intros _. apply wp_setImmediate. split; [reflexivity|].
          exists (received_body (body req)). cbn.
          split; [reflexivity|]. split; [tauto|]. split; [reflexivity | intros N; now destruct N].
        * apply wp_bind. unfold logger_warn. apply wp_logger_call.
          -- intros e _. repeat split. exact Hres.
          -- intros _. apply wp_res_status_json; [intros N; now destruct N|].
             intros _. split; [reflexivity|].
             exists (unauthorized (error v)). cbn.
             split; [reflexivity|]. split; [right; left; now exists (error v)|].
             split; [discriminate | reflexivity].
      + apply wp_bind. unfold logger_warn. apply wp_logger_call.
        * intros e _. repeat split. exact Hres.
        * intros _. apply wp_res_status_json; [intros N; now destruct N|].
          intros _. split; [reflexivity|].
          exists (bad_request (validationResult req)). cbn.
          split; [reflexivity|]. split; [tauto|].
          split; [discriminate | reflexivity].
    - intros s1 [e|[]] H; [|exact H].
      destruct H as (Hr & Hi & Ht).
      apply wp_bind. unfold logger_error. apply wp_logger_call.
      + intros e' T. rewrite Ht, Herr in T by reflexivity. discriminate.
      + intros _. apply wp_res_status_json; [intros N; now destruct N|].
        intros _. split; [reflexivity|].
        exists internal_error. cbn.
        split; [reflexivity|]. split; [tauto|].
        split; [discriminate | intros _; exact Hi]. }
  unfold wp, Q in W. destruct (handleWebhook req config s) as [s1 o].
  cbn [fst snd] in W. destruct W as (-> & r & W).
  now exists s1, r.
Qed.

(** X8. Whatever [logger.warn] and [logger.info] do, [handleWebhook]
    returns and sends one response, provided [logger.error] returns and no
    response was sent before: the response is the 400, 401 or 200 one, or,
    when a logger call has thrown on the way, the 500 one, whose body is
    fixed and says nothing of the fault.  The processing is queued with
    the 200 response and with no other. *)
Theorem handleWebhook_always_responds req config s :
  error_logging_returns s ->
  response s = None ->
  exists (s1 : State) (r : HttpResponse),
    handleWebhook req config s = (s1, Returned tt) /\
    response s1 = Some r /\
    (r = bad_request (validationResult req) \/
     (exists reason, r = unauthorized reason) \/
     r = received_body (body req) \/
     r = internal_error) /\
    (status r = 200 -> immediates s1 = (immediates s ++ [ProcessLater (body req)])%list) /\
    (status r <> 200 -> immediates s1 = immediates s).
Proof. exact (handleWebhook_sends req config s). Qed.

Lemma handleWebhook_always_responds_witness :
  let s := scenario_state "production" at_warn in
  let req := {| validationResult := [];
                body := scenario_payload scenario_time;
                header_yaya_signature := None;
                ip := Some "196.188.120.3";
                connection_remoteAddress := None |} in
  error_logging_returns s /\ response s = None /\
  result_of (handleWebhook req (scenario_config ["196.188.120.3"])) s = Some tt.
Proof.
  intros s req.
  assert (H : error_logging_returns s).
  { intros l e He. unfold s, scenario_state, process_state, at_warn. simpl. now rewrite He. }
  split; [exact H|]. split; [reflexivity|].
  destruct (handleWebhook_always_responds req (scenario_config ["196.188.120.3"]) s H eq_refl)
    as (s1 & r & E & _).
  unfold result_of. now rewrite E.
Defined.

(** The request of the witness, served by a process whose [logger.warn]
    throws: the verification ends in the internal fault, and the caller
    receives the 500 response. *)
Example scenario_warn_throws :
  response
    (state_after
       (handleWebhook {| validationResult := [];
                         body := scenario_payload scenario_time;
                         header_yaya_signature := None;
                         ip := Some "196.188.120.3";
                         connection_remoteAddress := None |}
          (scenario_config ["196.188.120.3"]))
       (scenario_state "production" at_warn))
  = Some internal_error.
Proof. vm_compute. reflexivity. Qed.

(* ================================================================== *)
(** * The steps of the processing *)

Ltac run_logger Herr s :=
  match goal with
  | |- context [match transport s ?l ?e with _ => _ end] =>
      first [ rewrite (Herr l e eq_refl)
            | let T := fresh "T" in destruct (transport s l e) eqn:T ];
      cbn [transport log clock with_log with_clock fst snd]
  end.

(** X9. [processWebhook] runs its steps in order and stops at the first
    that throws: the log receives the entries of the steps in their order,
    all five when the result is a success, and otherwise the entries of the
    steps before the failed one followed by the entry of the failure, with
    no entry of a later step.  [logger.error] is assumed to return. *)
Theorem processWebhook_steps_in_order payload s :
  error_logging_returns s ->
  exists (s' : State) (r : WebhookProcessingResult) (finished : Z),
    processWebhook payload s = (s', Returned r) /\
    ((success r = true /\
      log s' = (log s ++ processing_entries payload finished)%list)
     \/
     (success r = false /\
      exists (k : nat) (e : Exn),
        (k < 5)%nat /\
        log s' = (log s ++ firstn k (processing_entries payload finished) ++
                  [error_processing payload e])%list)).
Proof.
  intros Herr.
  unfold processWebhook, try_catch, processWebhook_steps, processWebhook_failed,
    updateTransactionStatus, sendCustomerNotification, updateAccountingSystem,
    simulateProcessing, sleep, bind, logger_info, logger_error, logger_call,
    Date_now, ret.
  cbn [transport log clock with_log with_clock fst snd].
  repeat run_logger Herr s;
    (eexists _, _, (clock s + 100); split; [reflexivity|];
     cbn [success log with_log with_clock];
     repeat rewrite <- app_assoc;
     first
       [ left; split; reflexivity
       | right; split; [reflexivity|];
         first [ exists 0%nat; eexists; split; [lia | reflexivity]
               | exists 1%nat; eexists; split; [lia | reflexivity]
               | exists 2%nat; eexists; split; [lia | reflexivity]
               | exists 3%nat; eexists; split; [lia | reflexivity]
               | exists 4%nat; eexists; split; [lia | reflexivity] ] ]).
Qed.

Lemma processWebhook_steps_in_order_witness :
  let s := scenario_state "production" (at_info_text "Customer notification sent") in
  error_logging_returns s /\
  exists (s' : State) (r : WebhookProcessingResult) (finished : Z),
    processWebhook (scenario_payload scenario_time) s = (s', Returned r) /\
    ((success r = true /\
      log s' = (log s ++ processing_entries (scenario_payload scenario_time) finished)%list)
     \/
     (success r = false /\
      exists (k : nat) (e : Exn),
        (k < 5)%nat /\
        log s' = (log s ++
                  firstn k (processing_entries (scenario_payload scenario_time) finished) ++
                  [error_processing (scenario_payload scenario_time) e])%list)).
Proof.
  intros s.
  assert (H : error_logging_returns s).
  { intros l e He. unfold s, scenario_state, process_state, at_info_text. simpl.
    now rewrite He. }
  split; [exact H|].
  exact (processWebhook_steps_in_order (scenario_payload scenario_time) s H).
Defined.

(** The processing of the witness: the notification of the customer
    throws, the accounting is not updated. *)
Example scenario_notification_throws :
  map text
    (log (state_after (processWebhook (scenario_payload scenario_time))
            (scenario_state "production" (at_info_text "Customer notification sent"))))
  = ["Processing webhook"; "Transaction status updated"; "Webhook processing failed"].
Proof. vm_compute. reflexivity. Qed.

(* ================================================================== *)
(** * The configuration *)

Lemma split_not_nil (sep : ascii) (s : string) : split sep s <> [].
Proof.
  destruct s as [|c r]; simpl; [discriminate|].
  destruct (Ascii.eqb c sep); [discriminate|].
  destruct (split sep r); discriminate.
Qed.

Lemma join_cons_cons (sep x y : string) (rest : list string) :
  Js.join sep (x :: y :: rest) = x ++ sep ++ Js.join sep (y :: rest).
Proof. reflexivity. Qed.

Lemma join_split (sep : ascii) (s : string) :
  Js.join (String sep EmptyString) (split sep s) = s.
Proof.
  induction s as [|c r IH]; [reflexivity|]. cbn [split].
  destruct (Ascii.eqb_spec c sep) as [-> | Hc].
  - destruct (split sep r) as [|h t] eqn:E; [now destruct (split_not_nil sep r)|].
    rewrite join_cons_cons, IH. reflexivity.
  - destruct (split sep r) as [|h t] eqn:E; [now destruct (split_not_nil sep r)|].
    destruct t as [|h' t'].
    + cbn [Js.join] in *. now rewrite IH.
    + rewrite join_cons_cons. rewrite join_cons_cons in IH. rewrite <- IH. reflexivity.
Qed.

Lemma split_items_free (s : string) : Forall comma_free (split "," s).
Proof.
  induction s as [|c r IH]; simpl.
  - constructor; [|constructor]. intros [].
  - destruct (Ascii.eqb_spec c ",") as [-> | Hc].
    + constructor; [intros [] | exact IH].
    + destruct (split "," r) as [|h t]; [constructor; [|constructor]|].
      * intros [E | []]. congruence.
      * inversion IH as [|? ? Hh Ht]; subst. constructor; [|exact Ht].
        intros [E | Hin]; [congruence | now apply Hh].
Qed.

Lemma split_app_comma (x r : string) :
  comma_free x -> split "," (x ++ String "," r) = x :: split "," r.
Proof.
  unfold comma_free. induction x as [|c x IH]; simpl; intros Hx; [reflexivity|].
  destruct (Ascii.eqb_spec c ",") as [-> | Hc]; [now destruct Hx; left|].
  rewrite IH; [reflexivity|]. intros Hin. apply Hx. now right.
Qed.

Lemma split_comma_free (x : string) : comma_free x -> split "," x = [x].
Proof.
  unfold comma_free. induction x as [|c x IH]; simpl; intros Hx; [reflexivity|].
  destruct (Ascii.eqb_spec c ",") as [-> | Hc]; [now destruct Hx; left|].
  rewrite IH; [reflexivity|]. intros Hin. apply Hx. now right.
Qed.

Lemma split_join (l : list string) :
  l <> [] -> Forall comma_free l -> split "," (Js.join "," l) = l.
Proof.
  induction l as [|x [|y rest] IH]; intros Hne Hall; [congruence| |].
  - simpl. apply split_comma_free. now inversion Hall.
  - rewrite join_cons_cons. inversion Hall as [|? ? Hx Hrest]; subst.
    change ("," ++ Js.join "," (y :: rest)) with (String "," (Js.join "," (y :: rest))).
    rewrite split_app_comma by exact Hx. f_equal. apply IH; [discriminate | exact Hrest].
Qed.

Lemma includes_In (xs : list string) (x : string) :
  Js.includes xs x = true <-> In x xs.
Proof.
  unfold Js.includes. rewrite existsb_exists. split.
  - intros (y & Hy & E). apply String.eqb_eq in E. now subst.
  - intros H. exists x. split; [exact H | apply String.eqb_refl].
Qed.

Lemma falsy_false (v : option string) :
  falsy v = false <-> exists x, v = Some x /\ x <> "".
Proof.
  destruct v as [[|c r]|]; simpl; split; try discriminate.
  - intros (x & [= <-] & N). congruence.
  - intros _. eexists. split; [reflexivity | discriminate].
  - reflexivity.
  - intros (x & E & _). discriminate.
Qed.

Lemma or_default_set (x d : string) : x <> "" -> or_default (Some x) d = x.
Proof. destruct x; [congruence | reflexivity]. Qed.

(** X10. [validateConfig] returns exactly when [WEBHOOK_SECRET] holds a
    non-empty string, and throws the error that names the variable
    otherwise, before any warning.  Once it has returned, the secret of
    the configuration is the variable's value: the built-in default is in
    use, and the warning about it is given, only when the variable holds
    that very string. *)
Theorem validateConfig_requires_secret (env : Env) :
  (snd (validateConfig env) = Returned tt <->
   exists v, env "WEBHOOK_SECRET" = Some v /\ v <> "") /\
  (snd (validateConfig env) <> Returned tt ->
   validateConfig env =
   ([], Threw (JsError "Error"
                 "Missing required environment variables: WEBHOOK_SECRET"))) /\
  (snd (validateConfig env) = Returned tt ->
   env "WEBHOOK_SECRET" = Some (config_webhook_secret env)) /\
  (In warning_default_secret (fst (validateConfig env)) <->
   env "WEBHOOK_SECRET" = Some default_secret).
Proof.
  unfold validateConfig. cbn [filter].
  destruct (falsy (env "WEBHOOK_SECRET")) eqn:F; cbn [List.length Nat.ltb Nat.leb fst snd].
  - assert (N : ~ exists v, env "WEBHOOK_SECRET" = Some v /\ v <> "").
    { intros H. apply falsy_false in H. congruence. }
    split; [split; [discriminate | tauto]|].
    split; [reflexivity|]. split; [discriminate|].
    split; [intros [] | intros E; rewrite E in F; discriminate].
  - pose proof F as F'. apply falsy_false in F'. destruct F' as (v & Ev & Hv).
    assert (Esec : config_webhook_secret env = v).
    { unfold config_webhook_secret. rewrite Ev. now apply or_default_set. }
    split; [split; [now exists v | reflexivity]|].
    split; [congruence|]. split; [intros _; now rewrite Esec|].
    rewrite Esec, Ev.
    destruct (String.eqb_spec v default_secret) as [-> | Hne].
    + split; [reflexivity | intros _; now left].
    + split.
      * cbn [app]. destruct (List.length (config_webhook_trustedIps env) =? 0)%nat;
          [intros [E | []]; discriminate | intros []].
      * intros [= E]. congruence.
Qed.

(** X11. The list of trusted addresses is empty exactly when
    [TRUSTED_IPS] is not set: a variable that is set, even to the empty
    string, gives at least one item, and [validateConfig] then gives no
    warning about the trusted addresses.  With [TRUSTED_IPS] set to the
    empty string the one item is the empty address, which is the address
    [handleWebhook] takes for a request that has none: such a request
    passes the IP check. *)
Theorem empty_TRUSTED_IPS_trusts_the_empty_address (env : Env) (tolerance : Z) :
  (trustedIps (config_webhook env tolerance) = [] <-> env "TRUSTED_IPS" = None) /\
  (In warning_no_trusted_ips (fst (validateConfig env)) <->
   snd (validateConfig env) = Returned tt /\ env "TRUSTED_IPS" = None) /\
  (env "TRUSTED_IPS" = Some "" ->
   trustedIps (config_webhook env tolerance) = [""] /\
   forall (req : Request) (s : State),
     falsy (ip req) = true ->
     falsy (connection_remoteAddress req) = true ->
     client_address req = "" /\
     ip_trusted s (client_address req) (config_webhook env tolerance)).
Proof.
  split; [|split].
  - cbn [trustedIps config_webhook]. unfold config_webhook_trustedIps.
    destruct (env "TRUSTED_IPS") as [v|]; split; try congruence.
    intros E. now destruct (split_not_nil "," v).
  - unfold validateConfig. cbn [filter].
    destruct (falsy (env "WEBHOOK_SECRET")); cbn [List.length Nat.ltb Nat.leb fst snd];
      [split; [intros [] | intros [H _]; discriminate]|].
    unfold config_webhook_trustedIps.
    destruct (env "TRUSTED_IPS") as [v|].
    + destruct (split "," v) eqn:E; [now destruct (split_not_nil "," v)|].
      cbn [List.length Nat.eqb].
      split; [|intros [_ H]; discriminate].
      destruct (String.eqb (config_webhook_secret env) default_secret); cbn [app].
      * intros [H | []]. discriminate.
      * intros [].
    + cbn [List.length Nat.eqb]. split; [now split|]. intros _.
      apply in_or_app. right. now left.
  - intros E. cbn [trustedIps config_webhook]. unfold config_webhook_trustedIps.
    rewrite E. split; [reflexivity|].
    intros req s Hip Hremote.
    assert (Ha : client_address req = "").
    { unfold client_address.
      destruct (ip req) as [[|c r]|]; try discriminate;
        destruct (connection_remoteAddress req) as [[|c' r']|]; try discriminate;
        reflexivity. }
    split; [exact Ha|]. rewrite Ha. apply ip_trusted_iff. unfold ip_check.
    cbn [trustedIps config_webhook]. unfold config_webhook_trustedIps. rewrite E.
    cbn [split Js.includes existsb String.eqb orb]. apply orb_true_r.
Qed.

(** X12. Outside the development mode, the addresses that pass the IP
    check are the items of [TRUSTED_IPS] between its commas, each taken as
    it is written: an address is trusted exactly when the variable is the
    list, joined by commas, of comma-free items of which it is one. *)
Theorem trusted_addresses_are_the_items (env : Env) (tolerance : Z) (s : State)
    (clientIp v : string) :
  env "TRUSTED_IPS" = Some v ->
  NODE_ENV s <> Some "development" ->
  (ip_trusted s clientIp (config_webhook env tolerance) <->
   exists before after : list string,
     Forall comma_free (before ++ clientIp :: after) /\
     v = Js.join "," (before ++ clientIp :: after)).
Proof.
  intros Ev Hmode. rewrite ip_trusted_iff. unfold ip_check.
  assert (Hdev : Js.strict_eq (NODE_ENV s) "development" = false).
  { apply not_true_false. rewrite strict_eq_true. exact Hmode. }
  rewrite Hdev. cbn [andb orb trustedIps config_webhook].
  unfold config_webhook_trustedIps. rewrite Ev, includes_In. split.
  - intros Hin. apply in_split in Hin. destruct Hin as (before & after & E).
    exists before, after. rewrite <- E. split; [apply split_items_free|].
    symmetry. apply (join_split "," v).
  - intros (before & after & Hfree & ->).
    rewrite split_join; [apply in_elt | | exact Hfree].
    now destruct before.
Qed.

Lemma trusted_addresses_are_the_items_witness :
  let env := env_of [("WEBHOOK_SECRET", "s3cr3t"); ("TRUSTED_IPS", "192.168.1.1, 10.0.0.1")] in
  let s := scenario_state "production" never in
  env "TRUSTED_IPS" = Some "192.168.1.1, 10.0.0.1" /\
  NODE_ENV s <> Some "development" /\
  ip_trusted s "192.168.1.1" (config_webhook env 300000) /\
  ~ ip_trusted s "10.0.0.1" (config_webhook env 300000) /\
  ip_trusted s " 10.0.0.1" (config_webhook env 300000).
Proof.
  intros env s.
  assert (Ev : env "TRUSTED_IPS" = Some "192.168.1.1, 10.0.0.1") by reflexivity.
  assert (Hs : NODE_ENV s <> Some "development") by discriminate.
  split; [exact Ev|]. split; [exact Hs|]. split; [|split].
  - apply (trusted_addresses_are_the_items env 300000 s "192.168.1.1" _ Ev Hs).
    exists [], [" 10.0.0.1"]. split; [|reflexivity].
    repeat constructor; unfold comma_free; simpl; intuition discriminate.
  - unfold ip_trusted. vm_compute. discriminate.
  - reflexivity.
Defined.

Example empty_TRUSTED_IPS_scenario :
  let env := env_of [("WEBHOOK_SECRET", "s3cr3t"); ("TRUSTED_IPS", "")] in
  validateConfig env = ([], Returned tt) /\
  option_map error
    (result_of (verifyWebhook (scenario_payload scenario_time) None ""
                  (config_webhook env 300000))
               (scenario_state "production" never))
  = Some (Some "Invalid signature").
Proof. vm_compute. split; reflexivity. Qed.

(* ================================================================== *)
(** * The environment gates *)

(** X13. The test endpoint answers 404 exactly when [NODE_ENV] is
    [production]. With [NODE_ENV] not set (or empty) the configuration
    reports the [development] mode and the test endpoint answers 200, yet
    the loopback address is trusted by the list only: the carve-out of
    [isTrustedIp] asks for the variable itself to be [development]. *)
Theorem environment_gates (env : Env) (s : State) :
  NODE_ENV s = env "NODE_ENV" ->
  response s = None ->
  (option_map status (response (state_after testWebhook s)) =
   Some (if Js.strict_eq (NODE_ENV s) "production" then 404 else 200)) /\
  (falsy (env "NODE_ENV") = true ->
   config_server_nodeEnv env = "development" /\
   option_map status (response (state_after testWebhook s)) = Some 200 /\
   forall config : WebhookConfig,
     ip_trusted s "::1" config <-> In "::1" (trustedIps config)).
Proof.
  intros Henv Hres.
  assert (Htest : option_map status (response (state_after testWebhook s)) =
                  Some (if Js.strict_eq (NODE_ENV s) "production" then 404 else 200)).
  { unfold state_after, testWebhook, bind, process_env_NODE_ENV, res_status_json.
    cbn [fst snd]. destruct (Js.strict_eq (NODE_ENV s) "production");
      rewrite Hres; reflexivity. }
  split; [exact Htest|].
  intros Hunset. rewrite <- Henv in Hunset.
  assert (Hmode : NODE_ENV s = None \/ NODE_ENV s = Some "").
  { destruct (NODE_ENV s) as [[|c r]|]; try discriminate; auto. }
  split; [|split].
  - unfold config_server_nodeEnv. rewrite <- Henv.
    now destruct Hmode as [-> | ->].
  - rewrite Htest. now destruct Hmode as [-> | ->].
  - intros config. rewrite ip_trusted_iff, <- includes_In. unfold ip_check.
    now destruct Hmode as [-> | ->].
Qed.

Lemma environment_gates_witness :
  let env := env_of [("WEBHOOK_SECRET", "s3cr3t")] in
  let s := process_state None (scenario_time * 1000) never in
  NODE_ENV s = env "NODE_ENV" /\ response s = None /\
  config_server_nodeEnv env = "development" /\
  option_map status (response (state_after testWebhook s)) = Some 200 /\
  ~ ip_trusted s "::1" (config_webhook env 300000).
Proof.
  intros env s.
  destruct (environment_gates env s eq_refl eq_refl) as (_ & Hunset).
  destruct (Hunset eq_refl) as (Hmode & Htest & Hip).
  split; [reflexivity|]. split; [reflexivity|]. split; [exact Hmode|].
  split; [exact Htest|].
  rewrite Hip. intros [].
Defined.

(* ================================================================== *)
(** * From the request to the end of the processing *)

Lemma with_immediates_same (s : State) (q : list Task) :
  immediates s = q -> with_immediates q s = s.
Proof. intros <-. now destruct s. Qed.

(** X14. A payload that was not accepted is not processed: when
    [handleWebhook] has answered anything but 200, nothing is queued, and
    the state at the end of the event loop is the state [handleWebhook]
    left: no step of the processing has run.  [logger.error] is assumed to
    return, no response to be sent yet and the queue to be empty. *)
Theorem unverified_payload_never_processed req config s :
  error_logging_returns s ->
  response s = None ->
  immediates s = [] ->
  forall r : HttpResponse,
    response (state_after (handleWebhook req config) s) = Some r ->
    status r <> 200 ->
    immediates (state_after (handleWebhook req config) s) = [] /\
    state_after (serve req config) s = state_after (handleWebhook req config) s.
Proof.
  intros Herr Hres Hq r Hr Hstatus.
  destruct (handleWebhook_sends req config s Herr Hres)
    as (s1 & r' & E & Hr' & _ & _ & Hkeep).
  unfold state_after in *. rewrite E in Hr. cbn [fst] in Hr.
  assert (r' = r) by congruence. subst r'.
  specialize (Hkeep Hstatus). rewrite Hq in Hkeep.
  unfold serve, bind. rewrite E. cbn [fst]. split; [exact Hkeep|].
  unfold run_immediates. rewrite Hkeep. cbn [run_tasks fst ret].
  now apply with_immediates_same.
Qed.

Lemma unverified_payload_never_processed_witness :
  let s := scenario_state "production" never in
  let req := {| validationResult := [];
                body := scenario_payload scenario_time;
                header_yaya_signature := Some "guess";
                ip := Some "196.188.120.3";
                connection_remoteAddress := None |} in
  let config := scenario_config ["196.188.120.3"] in
  error_logging_returns s /\ response s = None /\ immediates s = [] /\
  state_after (serve req config) s = state_after (handleWebhook req config) s.
Proof.
  intros s req config.
  assert (H : error_logging_returns s) by (intros l e _; reflexivity).
  split; [exact H|]. split; [reflexivity|]. split; [reflexivity|].
  refine (proj2 (unverified_payload_never_processed req config s H eq_refl eq_refl
                   (unauthorized (Some "Invalid signature")) _ _)).
  - vm_compute. reflexivity.
  - discriminate.
Defined.

(** With a logger that returns, [processWebhook] writes its five entries
    and resolves to the success. *)
Lemma processWebhook_succeeds payload s :
  logger_returns s ->
  processWebhook payload s =
  (with_log (log s ++ processing_entries payload (clock s + 100))
     (with_clock (clock s + 100) s),
   Returned {| success := true;
               message := "Webhook processed successfully";
               transactionId := Some (id payload);
               processedAt := clock s + 100 |}).
Proof.
  intros Hlog.
  unfold processWebhook, try_catch, processWebhook_steps,
    updateTransactionStatus, sendCustomerNotification, updateAccountingSystem,
    simulateProcessing, sleep, bind, logger_info, logger_call, Date_now, ret.
  cbn [transport log clock with_log with_clock fst snd].
  repeat (rewrite Hlog; cbn [transport log clock with_log with_clock fst snd]).
  repeat rewrite <- app_assoc. reflexivity.
Qed.

(** X15. With a logger that returns, a request that passes the validation
    and the verification is answered 200 and then processed once: at the
    end of the event loop the response is the 200 one, the queue is empty,
    and the log holds, after the entry of the verification, the five
    entries of the processing, in their order. *)
Theorem accepted_request_processed_once req config s :
  logger_returns s ->
  response s = None ->
  immediates s = [] ->
  validationResult req = [] ->
  result_of (verifyWebhook (body req) (header_yaya_signature req)
               (client_address req) config) s = Some (accepted (body req)) ->
  result_of (serve req config) s = Some tt /\
  response (state_after (serve req config) s) = Some (received_body (body req)) /\
  immediates (state_after (serve req config) s) = [] /\
  exists finished : Z,
    log (state_after (serve req config) s) =
      (log s ++ info_verified (body req) ::
                processing_entries (body req) finished)%list.
Proof.
  intros Hlog Hres Hq Hval Hacc.
  unfold result_of in Hacc. rewrite verifyWebhook_run in Hacc by exact Hlog.
  cbn [snd] in Hacc. injection Hacc as Hv.
  assert (Hvalid : isValid (verdict s (body req) (header_yaya_signature req)
                              (client_address req) config) = true)
    by now rewrite Hv.
  assert (Hentry : verdict_entry s (body req) (header_yaya_signature req)
                     (client_address req) config = info_verified (body req)).
  { rewrite isValid_verdict, !andb_true_iff in Hvalid.
    destruct Hvalid as [[Hip Hsig] Hts]. unfold verdict_entry.
    now rewrite Hip, Hsig, Hts. }
  pose proof (handleWebhook_verified req config s Hlog Hres Hval) as R.
  cbv zeta in R. rewrite Hvalid, Hentry, Hq in R.
  unfold result_of, state_after, serve, bind. rewrite R.
  unfold run_immediates. cbn [immediates with_immediates app run_tasks run_task].
  unfold deferred_processing, try_catch, bind. cbv beta.
  rewrite processWebhook_succeeds
    by (intros l e; apply Hlog).
  cbn [success negb ret fst snd response immediates log clock
       with_log with_clock with_response with_immediates].
  repeat split. exists (clock s + 100). now rewrite <- app_assoc.
Qed.

Lemma accepted_request_processed_once_witness :
  let s := scenario_state "production" never in
  let req := {| validationResult := [];
                body := scenario_payload scenario_time;
                header_yaya_signature := Some scenario_signature;
                ip := None;
                connection_remoteAddress := Some "196.188.120.3" |} in
  let config := scenario_config ["196.188.120.3"] in
  logger_returns s /\
  map text (log (state_after (serve req config) s)) =
    ["Webhook verification successful"; "Processing webhook";
     "Transaction status updated"; "Customer notification sent";
     "Accounting system updated"; "Webhook processing completed"].
Proof.
  intros s req config.
  assert (H : logger_returns s) by (intros l e; reflexivity).
  split; [exact H|].
  assert (Hacc : result_of (verifyWebhook (body req) (header_yaya_signature req)
                              (client_address req) config) s
                 = Some (accepted (body req))) by (vm_compute; reflexivity).
  destruct (accepted_request_processed_once req config s H eq_refl eq_refl eq_refl Hacc)
    as (_ & _ & _ & finished & Hl).
  rewrite Hl. reflexivity.
Defined.
